(** * Audio capture and transcription orchestration

    A shallow embedding of [electron/AudioHelper.ts] (class [AudioHelper])
    and of the [transcribe-web-audio] command of [electron/ipcHandlers.ts],
    followed by the properties of the recording controller, the fallback
    synthesizer, device discovery, the transcription client and the
    command gateway.

    Conventions of the embedding.
    - [this.*] fields and everything outside the process (file system,
      configuration, timers, network, child processes) live in one state
      that every method threads; a JavaScript [throw] is the [Throw]
      outcome, carrying [error.message].
    - What the outside world answers (does a write succeed, what does the
      remote endpoint reply, does the request outlive the timer) is read
      from fields of [Host]: theorems quantify over them.
    - Effects that leave the process are appended to [trace].
      [console.log] lines are kept in device discovery and microphone
      selection only (there they are the sole effect of the scans);
      [console.warn] and [console.error] are kept everywhere.
    - An [await] is a sequencing point; no other command is interleaved. *)

From Stdlib Require Import ZArith Ascii String List Bool Lia.
From Stdlib.Strings Require Import Byte.
From stdpp Require Import base option gmap strings list.
Import ListNotations.
Open Scope string_scope.
Open Scope Z_scope.

(** ** Node.js pieces used by the source *)

(** [path.join], [path.isAbsolute], [path.basename], [os.tmpdir()] and
    [Buffer.from(_, 'base64')] are host-library functions. *)
Class NodeLib := {
  path_join : string -> string -> string;
  path_isAbsolute : string -> bool;
  path_basename : string -> string;
  os_tmpdir : string;
  base64_decode : string -> list byte
}.

(** [process.platform] *)
Inductive Platform := win32 | darwin | linux | other_os.

Definition is_win32 (p : Platform) : bool :=
  match p with win32 => true | _ => false end.

(** A handle returned by [execFile]: [pid] may be undefined, and [kill()]
    may throw. *)
Record ChildProcess := mkChildProcess {
  pid : option Z;
  kill_error : option string
}.

Inductive Level := LLog | LWarn | LError.

Inductive Event :=
| Console (lvl : Level) (msg : string)
| Exec (file : string) (args : list string)
| Kill (p : option Z)
| Taskkill (p : Z)
| Sleep (ms : Z)
| TimerSet (id : nat) (ms : Z)
| TimerFired (id : nat)
| TimerCleared (id : nat)
| Abort
| Fetch (url : string) (authorization : string) (filename : string)
        (body : list byte)
| IpcSend (channel : string) (payload : option string).

(** How an awaited operation ends while a cancellation timer is armed:
    it settles, it rejects, or the timer fires first. *)
Inductive Awaited (A : Type) :=
| Settled (a : A)
| Rejected (msg : string)
| Overrun.
Arguments Settled {A} a.
Arguments Rejected {A} msg.
Arguments Overrun {A}.

(** [response.json()] of the transcription endpoint: the fields the source
    reads are [error?.message] and [text]. *)
Record JsonBody := mkJsonBody {
  error_message : option string;
  body_text : option string
}.

Record Response := mkResponse {
  resp_ok : bool;
  statusText : string;
  json : Awaited JsonBody
}.

(** Result of [execFileAsync]: resolved with the streams, or rejected with
    an error that may carry [stderr]. *)
Inductive ExecResult :=
| ExecResolved (stdout stderr : string)
| ExecRejected (stderr : option string).

Record Host := mkHost {
  platform : Platform;
  files : gmap string (list byte);
  dirs : gset string;
  (* paths at which the system refuses to create or replace a file *)
  refused : gset string;
  (* files the system refuses to remove *)
  locked : gset string;
  (* the size the system reports for a directory *)
  dir_size : string -> Z;
  mkdir_error : option string;
  uuid_source : nat -> string;
  uuid_used : nat;
  (* ConfigHelper: loadConfig().apiKey and hasApiKey() *)
  cfg_apiKey : option string;
  cfg_hasApiKey : bool;
  (* answers of the outside world *)
  exec_result : ExecResult;
  spawn_result : ChildProcess;
  taskkill_error : option string;
  fetch_result : Awaited Response;
  abort_message : string;
  (* pending timers *)
  timers : gset nat;
  timer_next : nat;
  trace : list Event
}.

Record AudioHelper := mkAudioHelper {
  isRecording : bool;
  currentRecordingPath : option string;
  recordingProcess : option ChildProcess;
  audioDir : string;
  ffmpegPath : option string
}.

(** The state a method of [AudioHelper] runs in. *)
Record St := mkSt { this : AudioHelper; host : Host }.

(** The state a command handler runs in: [getAudioHelper()] and
    [deps.getMainWindow()] may both answer null. *)
Record Main := mkMain {
  audioHelper : option AudioHelper;
  mainWindow : bool;
  (* deps.PROCESSING_EVENTS.API_KEY_INVALID *)
  API_KEY_INVALID : string;
  main_host : Host
}.

(** ** A state monad with exceptions *)

Inductive outcome (A : Type) :=
| Ret (a : A)
| Throw (msg : string).
Arguments Ret {A} a.
Arguments Throw {A} msg.

Definition M (S A : Type) : Type := S -> outcome A * S.

Definition ret {S A} (a : A) : M S A := fun s => (Ret a, s).

Definition bind {S A B} (m : M S A) (k : A -> M S B) : M S B :=
  fun s => match m s with
           | (Ret a, s') => k a s'
           | (Throw e, s') => (Throw e, s')
           end.

Definition throw {S A} (msg : string) : M S A := fun s => (Throw msg, s).

(** [try { body } catch (error) { handler error.message }] *)
Definition try_catch {S A} (body : M S A) (handler : string -> M S A) : M S A :=
  fun s => match body s with
           | (Ret a, s') => (Ret a, s')
           | (Throw e, s') => handler e s'
           end.

(** [try { body } finally { cleanup }]; [cleanup] does not throw where the
    source uses it. *)
Definition try_finally {S A} (body : M S A) (cleanup : M S unit) : M S A :=
  fun s => match body s with
           | (r, s') => (r, snd (cleanup s'))
           end.

Definition gets {S A} (f : S -> A) : M S A := fun s => (Ret (f s), s).
Definition modify {S} (f : S -> S) : M S unit := fun s => (Ret tt, f s).

Declare Scope js_scope.
Delimit Scope js_scope with js.
Notation "x <- m ;; k" := (bind m (fun x => k))
  (at level 100, m at level 99, k at level 200, right associativity,
   only parsing) : js_scope.
Notation "m ;;; k" := (bind m (fun _ => k))
  (at level 100, k at level 200, right associativity,
   only parsing) : js_scope.
Open Scope js_scope.

(** ** State updates *)

Definition with_trace (t : list Event) (h : Host) : Host :=
  mkHost (platform h) (files h) (dirs h) (refused h) (locked h) (dir_size h)
         (mkdir_error h)
         (uuid_source h) (uuid_used h) (cfg_apiKey h) (cfg_hasApiKey h)
         (exec_result h) (spawn_result h) (taskkill_error h) (fetch_result h)
         (abort_message h) (timers h) (timer_next h) t.

Definition with_files (f : gmap string (list byte)) (h : Host) : Host :=
  mkHost (platform h) f (dirs h) (refused h) (locked h) (dir_size h)
         (mkdir_error h)
         (uuid_source h) (uuid_used h) (cfg_apiKey h) (cfg_hasApiKey h)
         (exec_result h) (spawn_result h) (taskkill_error h) (fetch_result h)
         (abort_message h) (timers h) (timer_next h) (trace h).

Definition with_dirs (d : gset string) (h : Host) : Host :=
  mkHost (platform h) (files h) d (refused h) (locked h) (dir_size h)
         (mkdir_error h)
         (uuid_source h) (uuid_used h) (cfg_apiKey h) (cfg_hasApiKey h)
         (exec_result h) (spawn_result h) (taskkill_error h) (fetch_result h)
         (abort_message h) (timers h) (timer_next h) (trace h).

Definition with_uuid_used (n : nat) (h : Host) : Host :=
  mkHost (platform h) (files h) (dirs h) (refused h) (locked h) (dir_size h)
         (mkdir_error h)
         (uuid_source h) n (cfg_apiKey h) (cfg_hasApiKey h)
         (exec_result h) (spawn_result h) (taskkill_error h) (fetch_result h)
         (abort_message h) (timers h) (timer_next h) (trace h).

Definition with_timers (t : gset nat) (n : nat) (h : Host) : Host :=
  mkHost (platform h) (files h) (dirs h) (refused h) (locked h) (dir_size h)
         (mkdir_error h)
         (uuid_source h) (uuid_used h) (cfg_apiKey h) (cfg_hasApiKey h)
         (exec_result h) (spawn_result h) (taskkill_error h) (fetch_result h)
         (abort_message h) t n (trace h).

Definition set_isRecording (b : bool) (a : AudioHelper) : AudioHelper :=
  mkAudioHelper b (currentRecordingPath a) (recordingProcess a)
                (audioDir a) (ffmpegPath a).
Definition set_currentRecordingPath (p : option string) (a : AudioHelper)
  : AudioHelper :=
  mkAudioHelper (isRecording a) p (recordingProcess a)
                (audioDir a) (ffmpegPath a).
Definition set_recordingProcess (p : option ChildProcess) (a : AudioHelper)
  : AudioHelper :=
  mkAudioHelper (isRecording a) (currentRecordingPath a) p
                (audioDir a) (ffmpegPath a).

Definition set_this (f : AudioHelper -> AudioHelper) (s : St) : St :=
  mkSt (f (this s)) (host s).

(** States that contain the outside world. *)
Class HasHost (S : Type) := {
  get_host : S -> Host;
  set_host : (Host -> Host) -> S -> S
}.

#[global] Instance St_HasHost : HasHost St := {|
  get_host := host;
  set_host := fun f s => mkSt (this s) (f (host s))
|}.

#[global] Instance Main_HasHost : HasHost Main := {|
  get_host := main_host;
  set_host := fun f m =>
    mkMain (audioHelper m) (mainWindow m) (API_KEY_INVALID m) (f (main_host m))
|}.

(** ** JavaScript truthiness *)

(** [if (x)] on a [string | null]: null and the empty string are falsy. *)
Definition truthy (o : option string) : option string :=
  match o with
  | Some s => if String.eqb s "" then None else Some s
  | None => None
  end.

(** [if (pid)] on a [number | undefined]: undefined and 0 are falsy. *)
Definition truthy_pid (o : option Z) : option Z :=
  match o with
  | Some n => if Z.eqb n 0 then None else Some n
  | None => None
  end.

(** [a || b] on strings. *)
Definition or_else (o : option string) (d : string) : string :=
  match truthy o with Some s => s | None => d end.

(** ** Primitive effects *)

(** The messages of the type errors that Node raises for
    [fs.writeFileSync(null, _)], [execFile(null, _)] and
    [Buffer.from(undefined, 'base64')]. *)
Definition dquote : ascii := "034"%char.
Definition quoted (name : string) : string :=
  String dquote (name ++ String dquote "").
Definition ERR_PATH_NULL : string :=
  "The " ++ quoted "path"
    ++ " argument must be of type string or an instance of Buffer or URL."
    ++ " Received null".
Definition ERR_FILE_NULL : string :=
  "The " ++ quoted "file" ++ " argument must be of type string. Received null".
Definition ERR_FIRST_ARGUMENT_UNDEFINED : string :=
  "The first argument must be of type string or an instance of Buffer, "
    ++ "ArrayBuffer, or Array or an Array-like Object. Received undefined".
Definition EACCES (op p : string) : string :=
  "EACCES: permission denied, " ++ op ++ " '" ++ p ++ "'".
Definition ENOENT (op p : string) : string :=
  "ENOENT: no such file or directory, " ++ op ++ " '" ++ p ++ "'".
Definition EISDIR (op : string) : string :=
  "EISDIR: illegal operation on a directory, " ++ op.
Definition EPERM (op p : string) : string :=
  "EPERM: operation not permitted, " ++ op ++ " '" ++ p ++ "'".

(** [fs.existsSync] *)
Definition existsSync (p : string) (h : Host) : bool :=
  bool_decide (is_Some (files h !! p)) || bool_decide (p ∈ dirs h).

(** [fs.statSync(path).size] of a path known to exist: the length of a
    file, and for a directory what the system reports. *)
Definition stat_size (p : string) (h : Host) : Z :=
  match files h !! p with
  | Some data => Z.of_nat (length data)
  | None => if bool_decide (p ∈ dirs h) then dir_size h p else 0
  end.

Section Primitives.
Context {S : Type} `{HasHost S}.

Definition emit (e : Event) : M S unit :=
  modify (set_host (fun h => with_trace (trace h ++ [e]) h)).

Definition console_log (msg : string) : M S unit := emit (Console LLog msg).
Definition console_warn (msg : string) : M S unit := emit (Console LWarn msg).
Definition console_error (msg : string) : M S unit := emit (Console LError msg).

(** [fs.writeFileSync(path, data)]; the source also passes
    [this.currentRecordingPath], which may be null. *)
Definition writeFileSync (p : option string) (data : list byte) : M S unit :=
  match p with
  | None => throw ERR_PATH_NULL
  | Some p =>
      h <- gets get_host ;;
      if bool_decide (p ∈ dirs h) then throw (EISDIR "open")
      else if bool_decide (p ∈ refused h) then throw (EACCES "open" p)
      else modify (set_host (fun h => with_files (<[p := data]> (files h)) h))
  end.

(** [fs.readFileSync(path)] *)
Definition readFileSync (p : string) : M S (list byte) :=
  h <- gets get_host ;;
  match files h !! p with
  | Some data => ret data
  | None => if bool_decide (p ∈ dirs h) then throw (EISDIR "read")
            else throw (ENOENT "open" p)
  end.

(** [fs.unlinkSync(path)]: it fails when nothing is at the path and when
    the system does not let the file go, whether or not it could be
    written. *)
Definition unlinkSync (p : string) : M S unit :=
  h <- gets get_host ;;
  match files h !! p with
  | None => throw (ENOENT "unlink" p)
  | Some _ =>
      if bool_decide (p ∈ locked h) then throw (EPERM "unlink" p)
      else modify (set_host (fun h => with_files (delete p (files h)) h))
  end.

(** [fs.mkdirSync(path, { recursive: true })] *)
Definition mkdirSync (p : string) : M S unit :=
  h <- gets get_host ;;
  match mkdir_error h with
  | Some e => throw e
  | None => modify (set_host (fun h => with_dirs ({[p]} ∪ dirs h) h))
  end.

(** [uuidv4()] *)
Definition uuidv4 : M S string :=
  h <- gets get_host ;;
  modify (set_host (with_uuid_used (Datatypes.S (uuid_used h)))) ;;;
  ret (uuid_source h (uuid_used h)).

(** [setTimeout(callback, ms)], giving the timer id. *)
Definition setTimeout (ms : Z) : M S nat :=
  h <- gets get_host ;;
  let id := timer_next h in
  modify (set_host (with_timers ({[id]} ∪ timers h) (Datatypes.S id))) ;;;
  emit (TimerSet id ms) ;;;
  ret id.

(** [clearTimeout(id)] *)
Definition clearTimeout (id : nat) : M S unit :=
  modify (set_host (fun h => with_timers (timers h ∖ {[id]}) (timer_next h) h)) ;;;
  emit (TimerCleared id).

(** Awaiting an operation tied to the signal of the controller that timer
    [id] aborts: if the timer fires first, its callback runs
    [controller.abort()] and the operation rejects with the abort error. *)
Definition await_abortable {A} (id : nat) (r : Awaited A) : M S A :=
  match r with
  | Settled a => ret a
  | Rejected msg => throw msg
  | Overrun =>
      modify (set_host (fun h => with_timers (timers h ∖ {[id]}) (timer_next h) h)) ;;;
      emit (TimerFired id) ;;;
      emit Abort ;;;
      h <- gets get_host ;;
      throw (abort_message h)
  end.

(** [mainWindow.webContents.send(channel, payload)] under
    [if (mainWindow)]. *)
Definition send (window : bool) (channel : string) (payload : option string)
  : M S unit :=
  if window then emit (IpcSend channel payload) else ret tt.

End Primitives.

(** ** Process supervisor primitives *)

(** [process.kill()] *)
Definition kill (p : ChildProcess) : M St unit :=
  emit (Kill (pid p)) ;;;
  match kill_error p with
  | Some e => throw e
  | None => ret tt
  end.

(** [execFileSync('taskkill', ['/F', '/T', '/PID', pid.toString()])] *)
Definition taskkill (n : Z) : M St unit :=
  emit (Taskkill n) ;;;
  e <- gets (fun s => taskkill_error (host s)) ;;
  match e with
  | Some e => throw e
  | None => ret tt
  end.

(** [await new Promise(resolve => setTimeout(resolve, ms))] *)
Definition sleep (ms : Z) : M St unit := emit (Sleep ms).

(** An entry of an argument vector as the child process receives it: a
    null entry is passed as the text null. *)
Definition arg_text (a : option string) : string :=
  match a with Some t => t | None => "null" end.

(** [execFile(file, args)]: a null file is a type error. *)
Definition execFile (file : option string) (args : list (option string))
  : M St ChildProcess :=
  match file with
  | Some f =>
      emit (Exec f (map arg_text args)) ;;;
      gets (fun s => spawn_result (host s))
  | None => throw ERR_FILE_NULL
  end.

(** [execFileAsync(file, args, { timeout: 5000 }).catch(err =>
    ({ stderr: err.stderr || '' }))], projected on [stderr]. *)
Definition execFileAsync_stderr (file : string) (args : list string)
  : M St string :=
  emit (Exec file args) ;;;
  r <- gets (fun s => exec_result (host s)) ;;
  match r with
  | ExecResolved _ err => ret err
  | ExecRejected err => ret (or_else err "")
  end.

(** ** String operations of the device parser *)

Definition newline : ascii := "010"%char.

(** [s.includes(sub)] *)
Fixpoint includes (sub s : string) : bool :=
  if String.prefix sub s then true
  else match s with
       | EmptyString => false
       | String _ s' => includes sub s'
       end.

(** [s.split(c)] for a one-character separator. *)
Fixpoint split_on (c : ascii) (s : string) : list string :=
  match s with
  | EmptyString => [""]
  | String a s' =>
      if Ascii.eqb a c then "" :: split_on c s'
      else match split_on c s' with
           | x :: xs => String a x :: xs
           | [] => [String a ""]
           end
  end.

(** The longest prefix without a double quote, and what follows it. *)
Fixpoint span_unquoted (s : string) : string * string :=
  match s with
  | EmptyString => ("", "")
  | String c s' =>
      if Ascii.eqb c dquote then ("", s)
      else let (run, rest) := span_unquoted s' in (String c run, rest)
  end.

(** [line.match] on the pattern quote, group of one or more non-quote
    characters, quote; the result is capture group 1 of the leftmost
    match. At a quote the greedy group takes the whole quote-free run, and
    giving characters back cannot help, since a quote has to follow. *)
Fixpoint match_quoted (line : string) : option string :=
  match line with
  | EmptyString => None
  | String c s' =>
      if Ascii.eqb c dquote then
        match span_unquoted s' with
        | (String a run, String _ _) => Some (String a run)
        | _ => match_quoted s'
        end
      else match_quoted s'
  end.

(** ** Device discovery *)

(** The first loop of [listAudioDevices]: one pass over the lines,
    pushing each extracted name. *)
Fixpoint collectDevices (lines : list string) (audioDevices : list string)
  : M St (list string) :=
  match lines with
  | [] => ret audioDevices
  | line :: rest =>
      if includes "(audio)" line then
        match match_quoted line with
        | Some name =>
            console_log ("Found audio device: " ++ name) ;;;
            collectDevices rest (audioDevices ++ [name])
        | None => collectDevices rest audioDevices
        end
      else collectDevices rest audioDevices
  end.

Definition commonMicNames : list string :=
  ["Microphone"; "Mic"; "Audio"; "Input"; "Headset"].

Definition likely_line (device : string) : Event :=
  Console LLog ("Found likely microphone device: " ++ device).

(** The inner loop over [commonMicNames]: it logs and breaks at the first
    name the device contains. The result is the name it broke at. *)
Fixpoint scanNames (device : string) (names : list string)
  : M St (option string) :=
  match names with
  | [] => ret None
  | name :: rest =>
      if includes name device then
        emit (likely_line device) ;;; ret (Some name)
      else scanNames device rest
  end.

(** The outer loop over the detected devices. *)
Fixpoint scanDevices (audioDevices : list string) : M St unit :=
  match audioDevices with
  | [] => ret tt
  | device :: rest =>
      scanNames device commonMicNames ;;; scanDevices rest
  end.

Definition list_args (plat : Platform) : list string :=
  if is_win32 plat
  then ["-list_devices"; "true"; "-f"; "dshow"; "-i"; "dummy"]
  else ["-list_devices"; "true"; "-f";
        match plat with darwin => "avfoundation" | _ => "alsa" end;
        "-i"; "dummy"].

Definition listAudioDevices : M St (list string) :=
  ff <- gets (fun s => ffmpegPath (this s)) ;;
  match truthy ff with
  | None =>
      console_log "Cannot list audio devices: FFmpeg not found" ;;; ret []
  | Some ffmpeg =>
      try_catch
        (plat <- gets (fun s => platform (host s)) ;;
         let args := list_args plat in
         console_log ("Listing audio devices with command: " ++ ffmpeg
                        ++ " " ++ String.concat " " args) ;;;
         stderr <- execFileAsync_stderr ffmpeg args ;;
         console_log "Available audio devices:" ;;;
         console_log stderr ;;;
         if is_win32 plat then
           audioDevices <- collectDevices (split_on newline stderr) [] ;;
           console_log ("Detected audio devices: "
                          ++ String.concat ", " audioDevices) ;;;
           scanDevices audioDevices ;;;
           ret audioDevices
         else ret [])
        (fun msg =>
           console_error ("Error listing audio devices: " ++ msg) ;;;
           ret [])
  end.

(** ** Results returned to the caller *)

(** [{ success: boolean; error?: string; path?: string }] *)
Record RecordingResult := mkRecordingResult {
  success : bool;
  error : option string;
  path : option string
}.

(** [{ recording: boolean; path: string | null }] *)
Record RecordingStatus := mkRecordingStatus {
  recording : bool;
  status_path : option string
}.

(** [{ success: boolean; error?: string; text?: string }] *)
Record TranscriptionResult := mkTranscriptionResult {
  t_success : bool;
  t_error : option string;
  text : option string
}.

(** ** Fallback synthesizer *)

Definition wavHeader : list byte :=
  [ x52; x49; x46; x46;   (* RIFF *)
    x24; x00; x00; x00;   (* Chunk size (36 + data size) *)
    x57; x41; x56; x45;   (* WAVE *)
    x66; x6d; x74; x20;   (* fmt  *)
    x10; x00; x00; x00;   (* Subchunk1 size (16 bytes) *)
    x01; x00;             (* Audio format (1 = PCM) *)
    x01; x00;             (* Number of channels (1) *)
    x44; xac; x00; x00;   (* Sample rate (44100) *)
    x88; x58; x01; x00;   (* Byte rate (44100 * 1 * 2) *)
    x02; x00;             (* Block align (2) *)
    x10; x00;             (* Bits per sample (16) *)
    x64; x61; x74; x61;   (* data *)
    x00; x00; x00; x00    (* Data size (0 bytes) *)
  ]%byte.

Definition simulateRecording : M St RecordingResult :=
  try_catch
    (p <- gets (fun s => currentRecordingPath (this s)) ;;
     writeFileSync p wavHeader ;;;
     modify (set_this (set_isRecording true)) ;;;
     p <- gets (fun s => currentRecordingPath (this s)) ;;
     ret (mkRecordingResult true None p))
    (fun msg =>
       console_error ("Error simulating recording: " ++ msg) ;;;
       ret (mkRecordingResult false
              (Some ("Failed to simulate recording: " ++ msg)) None)).

(** ** Recording controller *)

(** Microphone selection of [startWindowsRecording]: the inner loop over
    its own three names, giving whether it broke. *)
Fixpoint selectNames (device : string) (names : list string) : M St bool :=
  match names with
  | [] => ret false
  | name :: rest =>
      if includes name device then
        console_log ("Using detected microphone device: " ++ device) ;;;
        ret true
      else selectNames device rest
  end.

(** The outer loop, giving [microphoneDevice] when [foundMic]. *)
Fixpoint selectDevice (audioDevices : list string) : M St (option string) :=
  match audioDevices with
  | [] => ret None
  | device :: rest =>
      foundMic <- selectNames device ["Microphone"; "Mic"; "Headset"] ;;
      if foundMic then ret (Some device) else selectDevice rest
  end.

Definition startWindowsRecording : M St RecordingResult :=
  try_catch
    (audioDevices <- listAudioDevices ;;
     match audioDevices with
     | first :: _ =>
         found <- selectDevice audioDevices ;;
         match found with
         | Some _ => ret tt
         | None =>
             console_log
               ("No specific microphone found, using first audio device: "
                  ++ first)
         end ;;;
         simulateRecording
     | [] =>
         console_log
           "No audio devices detected, falling back to simulated recording" ;;;
         simulateRecording
     end)
    (fun msg =>
       console_error ("Error starting Windows recording: " ++ msg) ;;;
       simulateRecording).

Definition ffmpeg_args (plat : Platform) (out : option string)
  : list (option string) :=
  [ Some "-f";
    Some match plat with
         | darwin => "avfoundation" | linux => "alsa" | _ => "dshow"
         end;
    Some "-i";
    Some match plat with
         | darwin => ":0" | linux => "default"
         | _ => "audio=Microphone Array (Realtek(R) Audio)"
         end;
    Some "-acodec"; Some "pcm_s16le";
    Some "-ar"; Some "44100";
    Some "-ac"; Some "1";
    out ].

(** The real-capture path; [startRecording] does not call it. *)
Definition startFFmpegRecording : M St RecordingResult :=
  try_catch
    (plat <- gets (fun s => platform (host s)) ;;
     if is_win32 plat then startWindowsRecording
     else
       ff <- gets (fun s => ffmpegPath (this s)) ;;
       out <- gets (fun s => currentRecordingPath (this s)) ;;
       proc <- execFile ff (ffmpeg_args plat out) ;;
       modify (set_this (set_recordingProcess (Some proc))) ;;;
       modify (set_this (set_isRecording true)) ;;;
       ret (mkRecordingResult true None out))
    (fun msg =>
       console_error ("Error starting FFmpeg recording: " ++ msg) ;;;
       ret (mkRecordingResult false
              (Some ("Failed to start FFmpeg recording: " ++ msg)) None)).

(** The tail of [stopRecording]: reset the recording state and report. *)
Definition stop_reset : M St RecordingResult :=
  modify (set_this (set_isRecording false)) ;;;
  recordingPath <- gets (fun s => currentRecordingPath (this s)) ;;
  modify (set_this (set_currentRecordingPath None)) ;;;
  ret (mkRecordingResult true None recordingPath).

(** The supervisor block of [stopRecording]: terminate the capture
    process, wait for the file to be finalized, drop the handle. *)
Definition terminate (p : ChildProcess) : M St unit :=
  plat <- gets (fun s => platform (host s)) ;;
  (if is_win32 plat then
     try_catch
       (kill p ;;;
        match truthy_pid (pid p) with
        | Some n =>
            try_catch (taskkill n)
              (fun e => console_error ("Error using taskkill: " ++ e))
        | None => ret tt
        end)
       (fun e => console_error ("Error killing process: " ++ e))
   else kill p) ;;;
  sleep 1000 ;;;
  modify (set_this (set_recordingProcess None)).

(** The verification block of [stopRecording]: check the artifact, then
    either return early or reset. *)
Definition verify_artifact : M St RecordingResult :=
  cur <- gets (fun s => currentRecordingPath (this s)) ;;
  match truthy cur with
  | Some f =>
      fileExists <- gets (fun s => existsSync f (host s)) ;;
      if fileExists then
        size <- gets (fun s => stat_size f (host s)) ;;
        (if size <? 100
         then console_warn
                "Warning: Audio file is very small, might be corrupted"
         else ret tt) ;;;
        stop_reset
      else
        console_error
          "Error: Recording file does not exist after stopping recording" ;;;
        ret (mkRecordingResult false
               (Some "Recording file not found after stopping") None)
  | None => stop_reset
  end.

Definition stopRecording : M St RecordingResult :=
  r <- gets (fun s => isRecording (this s)) ;;
  if negb r
  then ret (mkRecordingResult false (Some "Not currently recording") None)
  else
    try_catch
      (proc <- gets (fun s => recordingProcess (this s)) ;;
       cur <- gets (fun s => currentRecordingPath (this s)) ;;
       match proc with
       | Some p => terminate p
       | None =>
           match truthy cur with
           | Some f =>
               e <- gets (fun s => existsSync f (host s)) ;;
               if negb e then throw "Recording file not found" else ret tt
           | None => ret tt
           end
       end ;;;
       verify_artifact)
      (fun msg =>
         console_error ("Error stopping recording: " ++ msg) ;;;
         modify (set_this (set_isRecording false)) ;;;
         modify (set_this (set_currentRecordingPath None)) ;;;
         ret (mkRecordingResult false
                (Some ("Failed to stop recording: " ++ msg)) None)).

Definition getRecordingStatus : M St RecordingStatus :=
  r <- gets (fun s => isRecording (this s)) ;;
  p <- gets (fun s => currentRecordingPath (this s)) ;;
  ret (mkRecordingStatus r p).

Definition WHISPER_URL : string :=
  "https://api.openai.com/v1/audio/transcriptions".

(** [await fetch(url, { method: 'POST', headers, body, signal })] with the
    one-file form [body]. *)
Definition fetch (authorization filename : string) (body : list byte)
    (timeoutId : nat) : M St Response :=
  emit (Fetch WHISPER_URL authorization filename body) ;;;
  r <- gets (fun s => fetch_result (host s)) ;;
  await_abortable timeoutId r.

Section WithNode.
Context {node : NodeLib}.

Definition startRecording : M St RecordingResult :=
  r <- gets (fun s => isRecording (this s)) ;;
  if r then ret (mkRecordingResult false (Some "Already recording") None)
  else
    try_catch
      (u <- uuidv4 ;;
       let filename := "recording-" ++ u ++ ".wav" in
       dir <- gets (fun s => audioDir (this s)) ;;
       modify (set_this (set_currentRecordingPath
                           (Some (path_join dir filename)))) ;;;
       simulateRecording)
      (fun msg =>
         console_error ("Error starting recording: " ++ msg) ;;;
         modify (set_this (set_isRecording false)) ;;;
         modify (set_this (set_currentRecordingPath None)) ;;;
         ret (mkRecordingResult false
                (Some ("Failed to start recording: " ++ msg)) None)).

(** ** Transcription client *)

(** [path.isAbsolute(audioPath) ? audioPath : path.join(audioDir, audioPath)] *)
Definition resolve (dir audioPath : string) : string :=
  if path_isAbsolute audioPath then audioPath else path_join dir audioPath.

Definition transcribeAudio (audioPath : string) : M St TranscriptionResult :=
  try_catch
    (dir <- gets (fun s => audioDir (this s)) ;;
     let fullPath := resolve dir audioPath in
     e <- gets (fun s => existsSync fullPath (host s)) ;;
     if negb e then
       console_error ("Audio file not found at path: " ++ fullPath) ;;;
       ret (mkTranscriptionResult false (Some "Audio file not found") None)
     else
       apiKey <- gets (fun s => cfg_apiKey (host s)) ;;
       match truthy apiKey with
       | None =>
           ret (mkTranscriptionResult false
                  (Some "OpenAI API key not configured") None)
       | Some key =>
           audioData <- readFileSync fullPath ;;
           timeoutId <- setTimeout 30000 ;;
           try_finally
             (response <- fetch ("Bearer " ++ key) (path_basename fullPath)
                                audioData timeoutId ;;
              if negb (resp_ok response) then
                errorData <- await_abortable timeoutId (json response) ;;
                throw ("OpenAI API error: "
                         ++ or_else (error_message errorData)
                                    (statusText response))
              else
                data <- await_abortable timeoutId (json response) ;;
                ret (mkTranscriptionResult true None (body_text data)))
             (clearTimeout timeoutId)
       end)
    (fun msg =>
       console_error ("Error transcribing audio: " ++ msg) ;;;
       ret (mkTranscriptionResult false
              (Some ("Failed to transcribe audio: " ++ msg)) None)).

(** ** Command gateway *)

(** Running a method of the helper that [getAudioHelper()] returned. *)
Definition call {A} (a : AudioHelper) (m : M St A) : M Main A :=
  fun g =>
    let (r, s') := m (mkSt a (main_host g)) in
    (r, mkMain (Some (this s')) (mainWindow g) (API_KEY_INVALID g) (host s')).

(** [base64Audio.split(',')[1]] *)
Definition after_comma (base64Audio : string) : option string :=
  nth_error (split_on "," base64Audio) 1.

(** [Buffer.from(base64Data, 'base64')]: undefined is a type error. *)
Definition buffer_from_base64 (base64Data : option string)
  : M Main (list byte) :=
  match base64Data with
  | Some d => ret (base64_decode d)
  | None => throw ERR_FIRST_ARGUMENT_UNDEFINED
  end.

Definition tempDir : string := path_join os_tmpdir "voice-assistant".

(** Report a transcription result to the renderer. *)
Definition notify_result (window : bool) (result : TranscriptionResult)
  : M Main unit :=
  match (if t_success result then truthy (text result) else None) with
  | Some t => send window "transcription-completed" (Some t)
  | None => send window "transcription-error"
              (Some (or_else (t_error result) "Unknown error"))
  end.

(** [ipcMain.handle("transcribe-web-audio", ...)] *)
Definition transcribe_web_audio (base64Audio : string)
  : M Main TranscriptionResult :=
  try_catch
    (hasKey <- gets (fun g => cfg_hasApiKey (main_host g)) ;;
     window <- gets mainWindow ;;
     if negb hasKey then
       channel <- gets API_KEY_INVALID ;;
       send window channel None ;;;
       ret (mkTranscriptionResult false (Some "API key required") None)
     else
       helper <- gets audioHelper ;;
       match helper with
       | None =>
           ret (mkTranscriptionResult false
                  (Some "Audio helper not available") None)
       | Some a =>
           send window "transcription-started" None ;;;
           audioBuffer <- buffer_from_base64 (after_comma base64Audio) ;;
           present <- gets (fun g => existsSync tempDir (main_host g)) ;;
           (if negb present then mkdirSync tempDir else ret tt) ;;;
           u <- uuidv4 ;;
           let tempFilePath :=
             path_join tempDir ("web-audio-" ++ u ++ ".webm") in
           writeFileSync (Some tempFilePath) audioBuffer ;;;
           result <- call a (transcribeAudio tempFilePath) ;;
           try_catch (unlinkSync tempFilePath)
             (fun e => console_error ("Error deleting temporary file: " ++ e)) ;;;
           notify_result window result ;;;
           ret result
       end)
    (fun msg =>
       console_error ("Error transcribing web audio: " ++ msg) ;;;
       window <- gets mainWindow ;;
       send window "transcription-error" (Some (or_else (Some msg) "Unknown error")) ;;;
       ret (mkTranscriptionResult false
              (Some (or_else (Some msg) "Failed to transcribe audio")) None)).

End WithNode.

(** ** The audio container written by the synthesizer *)

(** Little-endian value of a byte string. *)
Fixpoint le (bs : list byte) : Z :=
  match bs with
  | [] => 0
  | b :: rest => Z.of_N (Byte.to_N b) + 256 * le rest
  end.

Definition field (off len : nat) (bs : list byte) : list byte :=
  firstn len (skipn off bs).

#[global] Instance byte_eq_decision : EqDecision byte := Byte.byte_eq_dec.

Definition tag (off : nat) (name : string) (bs : list byte) : bool :=
  bool_decide (field off 4 bs = list_byte_of_string name).

Record WavInfo := mkWavInfo {
  audioFormat : Z;
  numChannels : Z;
  sampleRate : Z;
  bitsPerSample : Z;
  dataSize : Z
}.

(** The canonical RIFF/WAVE layout with one 16-byte format chunk followed
    by the data chunk: the four tags in place, the sizes consistent with
    the length of the file, and the derived rates consistent with the
    declared format. *)
Definition parse_wav (bs : list byte) : option WavInfo :=
  let channels := le (field 22 2 bs) in
  let rate := le (field 24 4 bs) in
  let bits := le (field 34 2 bs) in
  let size := le (field 40 4 bs) in
  if tag 0 "RIFF" bs && tag 8 "WAVE" bs && tag 12 "fmt " bs
     && tag 36 "data" bs
     && (le (field 4 4 bs) =? 36 + size)
     && (le (field 16 4 bs) =? 16)
     && (Z.of_nat (length bs) =? 44 + size)
     && (le (field 28 4 bs) =? rate * channels * (bits / 8))
     && (le (field 32 2 bs) =? channels * (bits / 8))
  then Some (mkWavInfo (le (field 20 2 bs)) channels rate bits size)
  else None.

(** * Vocabulary of the properties *)

(** The events of a termination that does not throw. *)
Definition terminate_events (plat : Platform) (p : ChildProcess)
    (taskkill_err : option string) : list Event :=
  if is_win32 plat then
    Kill (pid p) ::
    match kill_error p with
    | Some e => [Console LError ("Error killing process: " ++ e)]
    | None =>
        match truthy_pid (pid p) with
        | Some n =>
            Taskkill n ::
            match taskkill_err with
            | Some e => [Console LError ("Error using taskkill: " ++ e)]
            | None => []
            end
        | None => []
        end
    end ++ [Sleep 1000]
  else [Kill (pid p); Sleep 1000].

(** Whenever the recording flag is set, the recording path is set. *)
Definition recording_has_path (a : AudioHelper) : bool :=
  negb (isRecording a) ||
  match currentRecordingPath a with Some _ => true | None => false end.

(** The operations of the helper that touch the recording state. *)
Inductive Op :=
| OpStartRecording
| OpSimulateRecording
| OpStopRecording
| OpGetRecordingStatus.



Inductive Command := Start | Stop.

(** The rejection returned by the guard of [startRecording]. *)
Definition AlreadyRecording : RecordingResult :=
  mkRecordingResult false (Some "Already recording") None.

Definition is_request (e : Event) : bool :=
  match e with Fetch _ _ _ _ => true | _ => false end.

(** The network requests recorded in a trace. *)
Definition requests (t : list Event) : list Event :=
  List.filter is_request t.

(** The request outlives the timer: either [fetch] has not settled when
    the timer fires, or it has and the body has not. *)
Definition exceeds_timer (h : Host) : bool :=
  match fetch_result h with
  | Overrun => true
  | Settled response =>
      match json response with Overrun => true | _ => false end
  | Rejected _ => false
  end.

(** The failure a timed-out call returns: the abort error of the request,
    wrapped by the handler of [transcribeAudio]. *)
Definition RequestTimeout (h : Host) : TranscriptionResult :=
  mkTranscriptionResult false
    (Some ("Failed to transcribe audio: " ++ abort_message h)) None.

(** A state whose trace has grown by [l]. *)
Definition log_to (l : list Event) (s : St) : St :=
  mkSt (this s) (with_trace (trace (host s) ++ l) (host s)).

(** The device is likely a microphone: its name contains one of the
    common names. *)
Definition isLikelyMicrophone (device : string) : bool :=
  existsb (fun name => includes name device) commonMicNames.

(** The line carries the audio device marker. *)
Definition has_marker (line : string) : bool := includes "(audio)" line.

Definition found_line (name : string) : Event :=
  Console LLog ("Found audio device: " ++ name).

(** The reading of the parser in the specification: keep the lines that
    carry the device marker, in order, and take from each its quoted
    name, if it has one. *)
Definition marked_names (lines : list string) : list string :=
  omap match_quoted (List.filter has_marker lines).

(** What the device-listing invocation printed on its diagnostic stream. *)
Definition diagnostic (h : Host) : string :=
  match exec_result h with
  | ExecResolved _ err => err
  | ExecRejected err => or_else err ""
  end.

(** The log lines that precede the parsing. *)
Definition listing_log (ffmpeg : string) (h : Host) : list Event :=
  [ Console LLog ("Listing audio devices with command: " ++ ffmpeg ++ " "
                    ++ String.concat " " (list_args (platform h)));
    Exec ffmpeg (list_args (platform h));
    Console LLog "Available audio devices:";
    Console LLog (diagnostic h) ].

Fixpoint quote_free (s : string) : bool :=
  match s with
  | EmptyString => true
  | String c s' => negb (Ascii.eqb c dquote) && quote_free s'
  end.

(** [line] holds, after [pre], a quote, the non-empty quote-free [name],
    and a quote. *)
Definition quoted_at (pre name post line : string) : Prop :=
  line = pre ++ String dquote (name ++ String dquote post) /\
  name <> "" /\ quote_free name = true.

(** Whether the pattern matches right at the start of [String dquote s]. *)
Definition matches_here (s : string) : option string :=
  match span_unquoted s with
  | (String a run, String _ _) => Some (String a run)
  | _ => None
  end.

Section Vocabulary.
Context {node : NodeLib}.

(** The state an operation leaves. *)
Definition exec (s : St) (o : Op) : St :=
  match o with
  | OpStartRecording => snd (startRecording s)
  | OpSimulateRecording => snd (simulateRecording s)
  | OpStopRecording => snd (stopRecording s)
  | OpGetRecordingStatus => snd (getRecordingStatus s)
  end.

Definition command (c : Command) : M St RecordingResult :=
  match c with
  | Start => startRecording
  | Stop => stopRecording
  end.

(** The state after a sequence of commands. *)
Definition after (cmds : list Command) (s : St) : St :=
  fold_left (fun s c => snd (command c s)) cmds s.

(** The name the handler gives to the temporary file. *)
Definition tempFilePath (h : Host) : string :=
  path_join tempDir ("web-audio-" ++ uuid_source h (uuid_used h) ++ ".webm").

End Vocabulary.

(** ** A concrete host for the examples *)

Definition posix_join (a b : string) : string := a ++ "/" ++ b.

Definition posix_isAbsolute (p : string) : bool := String.prefix "/" p.

(** The text after the last slash. *)
Fixpoint posix_basename (p : string) : string :=
  match p with
  | EmptyString => ""
  | String c rest =>
      if includes "/" rest then posix_basename rest
      else if Ascii.eqb c "/" then rest else p
  end.

(** Value of a character of the base64 alphabet (standard or URL-safe). *)
Definition b64_value (c : ascii) : option N :=
  let n := N_of_ascii c in
  if ((65 <=? n) && (n <=? 90))%N then Some (n - 65)%N
  else if ((97 <=? n) && (n <=? 122))%N then Some (n - 71)%N
  else if ((48 <=? n) && (n <=? 57))%N then Some (n + 4)%N
  else if ((n =? 43) || (n =? 45))%N then Some 62%N
  else if ((n =? 47) || (n =? 95))%N then Some 63%N
  else None.

(** The digits up to the padding; other characters are skipped. *)
Fixpoint b64_digits (s : string) : list N :=
  match s with
  | EmptyString => []
  | String c rest =>
      if Ascii.eqb c "=" then []
      else match b64_value c with
           | Some v => v :: b64_digits rest
           | None => b64_digits rest
           end
  end.

Definition byte_of (n : N) : byte :=
  match Byte.of_N (n mod 256) with Some b => b | None => x00 end.

Fixpoint b64_bytes (ds : list N) : list byte :=
  match ds with
  | a :: b :: c :: d :: rest =>
      byte_of (a * 4 + b / 16) :: byte_of (b * 16 + c / 4)
        :: byte_of (c * 64 + d) :: b64_bytes rest
  | [a; b; c] => [byte_of (a * 4 + b / 16); byte_of (b * 16 + c / 4)]
  | [a; b] => [byte_of (a * 4 + b / 16)]
  | _ => []
  end%N.

Definition posix : NodeLib := {|
  path_join := posix_join;
  path_isAbsolute := posix_isAbsolute;
  path_basename := posix_basename;
  os_tmpdir := "/tmp";
  base64_decode := fun s => b64_bytes (b64_digits s)
|}.

(** A Linux host with an empty file system, no credential, and a remote
    endpoint that never answers in time. *)
Definition quiet_host : Host :=
  mkHost linux ∅ ∅ ∅
         ∅ (fun _ => 4096) None (fun n => String (ascii_of_nat (97 + n)) "")
         0 None false (ExecRejected None) (mkChildProcess (Some 4242) None)
         None Overrun "The user aborted a request." ∅ 0 [].

Definition idle_helper : AudioHelper :=
  mkAudioHelper false None None "/data/audio" (Some "/usr/bin/ffmpeg").

Definition idle : St := mkSt idle_helper quiet_host.

(** The helper once [startRecording] has chosen the recording path, about
    to take the real-capture path. *)
Definition capture_armed : St :=
  mkSt (set_currentRecordingPath (Some "/data/audio/recording-a.wav")
          idle_helper)
       quiet_host.

(** The real-capture session it starts; the capture process never writes
    its artifact. *)
Definition capture_running : St := snd (startFFmpegRecording capture_armed).


(** A host holding one recording, with a key configured. *)
Definition with_recording : St :=
  mkSt idle_helper
       (mkHost linux {[ "/data/audio/recording-a.wav" := wavHeader ]} ∅ ∅
               ∅ (fun _ => 4096) None
               (fun _ => "b") 0 (Some "sk-test") true (ExecRejected None)
               (mkChildProcess None None) None Overrun
               "The user aborted a request." ∅ 0 []).

(** The same host once the key has been removed from the configuration. *)
Definition without_key : St :=
  mkSt idle_helper
       (mkHost linux {[ "/data/audio/recording-a.wav" := wavHeader ]} ∅ ∅
               ∅ (fun _ => 4096) None
               (fun _ => "b") 0 (Some "") false (ExecRejected None)
               (mkChildProcess None None) None Overrun
               "The user aborted a request." ∅ 0 []).

(** A gateway whose helper is idle, on a host holding a key and a remote
    endpoint that answers with a transcript. *)
Definition gateway : Main :=
  mkMain (Some idle_helper) true "api-key-invalid"
    (mkHost linux ∅ ∅ ∅
            ∅ (fun _ => 4096) None (fun _ => "c") 0 (Some "sk-test") true
            (ExecRejected None) (mkChildProcess None None) None
            (Settled (mkResponse true "OK"
                        (Settled (mkJsonBody None (Some "hello world")))))
            "The user aborted a request." ∅ 0 []).



(** What FFmpeg prints when asked for the DirectShow devices. *)
Definition dshow_listing : string :=
  "[dshow] DirectShow audio devices" ++ String newline
  ("[dshow]  " ++ String dquote ("Microphone (Realtek Audio)" ++ String dquote
     (" (audio)" ++ String newline
  ("[dshow]  " ++ String dquote ("Line In" ++ String dquote " (audio)"))))).

Definition listing_host (plat : Platform) : St :=
  mkSt idle_helper
       (mkHost plat ∅ ∅ ∅ ∅ (fun _ => 4096) None (fun _ => "d") 0 None false
               (ExecRejected (Some dshow_listing))
               (mkChildProcess None None) None Overrun "" ∅ 0 []).

(** * Further operations of the helper and of the gateway *)

Definition set_ffmpegPath (p : option string) (a : AudioHelper) : AudioHelper :=
  mkAudioHelper (isRecording a) (currentRecordingPath a) (recordingProcess a)
                (audioDir a) p.

(** ** String operations *)

(** White space for [trim], among the characters a one-byte string holds:
    tab, line feed, vertical tab, form feed, carriage return, space and
    the no-break space. *)
Definition is_space (c : ascii) : bool :=
  let n := nat_of_ascii c in
  ((9 <=? n) && (n <=? 13) || (n =? 32) || (n =? 160))%nat.

Fixpoint trimStart (s : string) : string :=
  match s with
  | EmptyString => ""
  | String c s' => if is_space c then trimStart s' else s
  end.

Fixpoint trimEnd (s : string) : string :=
  match s with
  | EmptyString => ""
  | String c s' =>
      match trimEnd s' with
      | EmptyString => if is_space c then "" else String c ""
      | t => String c t
      end
  end.

(** [s.trim()] *)
Definition trim (s : string) : string := trimEnd (trimStart s).

(** [s.endsWith(suffix)] *)
Definition endsWith (s suffix : string) : bool :=
  let n := String.length s in
  let m := String.length suffix in
  (m <=? n)%nat && String.eqb (substring (n - m) m s) suffix.

(** ** FFmpeg detection *)

Definition locate_command (plat : Platform) : string :=
  if is_win32 plat then "where" else "which".

(** [detectFFmpeg] up to its [await]: the locating command is launched. *)
Definition detectFFmpeg_call : M St unit :=
  plat <- gets (fun s => platform (host s)) ;;
  emit (Exec (locate_command plat) ["ffmpeg"]).

(** [detectFFmpeg] from its [await] on: the path is taken from a non-blank
    standard output, and reset when the command failed. *)
Definition detectFFmpeg_resume : M St unit :=
  r <- gets (fun s => exec_result (host s)) ;;
  match r with
  | ExecResolved stdout _ =>
      match truthy (Some (trim stdout)) with
      | Some found => modify (set_this (set_ffmpegPath (Some found)))
      | None => ret tt
      end
  | ExecRejected _ => modify (set_this (set_ffmpegPath None))
  end.

(** [await this.detectFFmpeg()] *)
Definition detectFFmpeg : M St unit :=
  detectFFmpeg_call ;;; detectFFmpeg_resume.

(** ** Cleaning the audio directory *)

(** [fs.readdirSync(dir)] lists the names of the entries of a directory;
    the listing is an answer of the host. *)
Class FsLib := {
  dir_entries : Host -> string -> list string
}.

Definition ENOTDIR (op p : string) : string :=
  "ENOTDIR: not a directory, " ++ op ++ " '" ++ p ++ "'".

Section Cleanup.
Context {node : NodeLib} {fslib : FsLib}.

Definition readdirSync (dir : string) : M St (list string) :=
  h <- gets host ;;
  if bool_decide (dir ∈ dirs h) then ret (dir_entries h dir)
  else match files h !! dir with
       | Some _ => throw (ENOTDIR "scandir" dir)
       | None => throw (ENOENT "scandir" dir)
       end.

(** The loop of [cleanupAudioDirectory] over the listed names. *)
Fixpoint unlinkWavs (dir : string) (names : list string) : M St unit :=
  match names with
  | [] => ret tt
  | file :: rest =>
      (if endsWith file ".wav" then unlinkSync (path_join dir file)
       else ret tt) ;;;
      unlinkWavs dir rest
  end.

Definition cleanupAudioDirectory : M St unit :=
  try_catch
    (dir <- gets (fun s => audioDir (this s)) ;;
     present <- gets (fun s => existsSync dir (host s)) ;;
     if present then
       names <- readdirSync dir ;;
       unlinkWavs dir names
     else ret tt)
    (fun msg => console_error ("Error cleaning audio directory: " ++ msg)).

End Cleanup.

Section Construction.
Context {node : NodeLib}.

(** The object as the field initialisers and the first assignment of the
    constructor leave it. *)
Definition fresh_helper (userData : string) : AudioHelper :=
  mkAudioHelper false None None (path_join userData "audio") None.

(** The rest of the constructor. [detectFFmpeg] is not awaited: it runs to
    its [await] and the constructor goes on, so the test of [ffmpegPath]
    reads the field before detection has written it. [listAudioDevices] is
    not awaited either. *)
Definition constructor_body : M St unit :=
  dir <- gets (fun s => audioDir (this s)) ;;
  present <- gets (fun s => existsSync dir (host s)) ;;
  (if negb present then mkdirSync dir else ret tt) ;;;
  detectFFmpeg_call ;;;
  ff <- gets (fun s => ffmpegPath (this s)) ;;
  match truthy ff with
  | Some _ => listAudioDevices ;;; ret tt
  | None => ret tt
  end.

(** [new AudioHelper()] with [app.getPath("userData")] given: the state
    when the constructor returns. *)
Definition new_AudioHelper (userData : string) (h : Host) : outcome unit * St :=
  constructor_body (mkSt (fresh_helper userData) h).

(** The state once the pending detection has resumed as well. *)
Definition settled_AudioHelper (userData : string) (h : Host)
  : outcome unit * St :=
  (constructor_body ;;; detectFFmpeg_resume) (mkSt (fresh_helper userData) h).

(** ** The other audio commands of the gateway *)

Definition unavailable : RecordingResult :=
  mkRecordingResult false (Some "Audio helper not available") None.

(** [ipcMain.handle("start-audio-recording", ...)] *)
Definition start_audio_recording : M Main RecordingResult :=
  try_catch
    (helper <- gets audioHelper ;;
     match helper with
     | None => ret unavailable
     | Some a => call a startRecording
     end)
    (fun msg =>
       console_error ("Error starting audio recording: " ++ msg) ;;;
       ret (mkRecordingResult false
              (Some (or_else (Some msg) "Failed to start recording")) None)).

(** [ipcMain.handle("get-recording-status", ...)] *)
Definition get_recording_status : M Main RecordingStatus :=
  helper <- gets audioHelper ;;
  match helper with
  | None => ret (mkRecordingStatus false None)
  | Some a => call a getRecordingStatus
  end.

(** [ipcMain.handle("stop-audio-recording", ...)] *)
Definition stop_audio_recording : M Main RecordingResult :=
  try_catch
    (helper <- gets audioHelper ;;
     match helper with
     | None => ret unavailable
     | Some a =>
         result <- call a stopRecording ;;
         window <- gets mainWindow ;;
         match (if success result then truthy (path result) else None) with
         | Some p => send window "audio-recording-stopped" (Some p)
         | None => ret tt
         end ;;;
         ret result
     end)
    (fun msg =>
       console_error ("Error stopping audio recording: " ++ msg) ;;;
       ret (mkRecordingResult false
              (Some (or_else (Some msg) "Failed to stop recording")) None)).

(** [ipcMain.handle("transcribe-audio", ...)] *)
Definition transcribe_audio (audioPath : string) : M Main TranscriptionResult :=
  try_catch
    (hasKey <- gets (fun g => cfg_hasApiKey (main_host g)) ;;
     window <- gets mainWindow ;;
     if negb hasKey then
       channel <- gets API_KEY_INVALID ;;
       send window channel None ;;;
       ret (mkTranscriptionResult false (Some "API key required") None)
     else
       helper <- gets audioHelper ;;
       match helper with
       | None =>
           ret (mkTranscriptionResult false
                  (Some "Audio helper not available") None)
       | Some a =>
           send window "transcription-started" None ;;;
           result <- call a (transcribeAudio audioPath) ;;
           notify_result window result ;;;
           ret result
       end)
    (fun msg =>
       console_error ("Error transcribing audio: " ++ msg) ;;;
       window <- gets mainWindow ;;
       send window "transcription-error"
            (Some (or_else (Some msg) "Unknown error")) ;;;
       ret (mkTranscriptionResult false
              (Some (or_else (Some msg) "Failed to transcribe audio")) None)).

End Construction.

(** ** Vocabulary and examples of the further properties *)

(** The warning of [stopRecording] about a short artifact. *)
Definition small_file_warning : Event :=
  Console LWarn "Warning: Audio file is very small, might be corrupted".

(** The helper with both recording fields reset. *)
Definition reset_helper (a : AudioHelper) : AudioHelper :=
  set_currentRecordingPath None (set_isRecording false a).

(** A session of the synthesizer whose artifact is not on disk. *)
Definition orphaned : St :=
  mkSt (mkAudioHelper true (Some "/data/audio/recording-a.wav") None
                      "/data/audio" None)
       quiet_host.

(** A real-capture session on Linux whose process cannot be killed. *)
Definition unkillable : St :=
  mkSt (mkAudioHelper true (Some "/data/audio/recording-a.wav")
                      (Some (mkChildProcess (Some 4242) (Some "kill EPERM")))
                      "/data/audio" (Some "/usr/bin/ffmpeg"))
       quiet_host.

(** A real-capture session on Windows with its artifact written, where
    both [kill()] and [taskkill] fail. *)
Definition windows_capture : St :=
  mkSt (mkAudioHelper true (Some "C:\audio\recording-a.wav")
                      (Some (mkChildProcess (Some 4242) (Some "kill EPERM")))
                      "C:\audio" (Some "C:\ffmpeg\ffmpeg.exe"))
       (mkHost win32 {[ "C:\audio\recording-a.wav" := wavHeader ]} ∅ ∅
               ∅ (fun _ => 4096) None
               (fun _ => "a") 0 None false (ExecRejected None)
               (mkChildProcess None None) (Some "taskkill failed") Overrun
               "" ∅ 0 []).

(** A real-capture session on Windows at whose recording path stands a
    directory, for which the system reports 4096 bytes. *)
Definition capture_on_directory : St :=
  mkSt (mkAudioHelper true (Some "C:\audio\recording-a.wav")
                      (Some (mkChildProcess (Some 4242) None))
                      "C:\audio" (Some "C:\ffmpeg\ffmpeg.exe"))
       (mkHost win32 ∅ {[ "C:\audio\recording-a.wav" ]} ∅ ∅
               (fun _ => 4096) None
               (fun _ => "a") 0 None false (ExecRejected None)
               (mkChildProcess None None) None Overrun "" ∅ 0 []).

(** The message of a failure response, by what reading its body gives. *)
Definition remote_failure (h : Host) (response : Response) : string :=
  match json response with
  | Settled body =>
      "OpenAI API error: "
        ++ or_else (error_message body) (statusText response)
  | Rejected msg => msg
  | Overrun => abort_message h
  end.

(** A host holding one recording and a key, whose remote endpoint answers
    with a transcript. *)
Definition answering : St :=
  mkSt idle_helper
       (mkHost linux {[ "/data/audio/recording-a.wav" := wavHeader ]} ∅ ∅
               ∅ (fun _ => 4096) None
               (fun _ => "b") 0 (Some "sk-test") true (ExecRejected None)
               (mkChildProcess None None) None
               (Settled (mkResponse true "OK"
                           (Settled (mkJsonBody None (Some "hello world")))))
               "The user aborted a request." ∅ 0 []).

(** The same host when the remote endpoint rejects the key. *)
Definition unauthorized : St :=
  mkSt idle_helper
       (mkHost linux {[ "/data/audio/recording-a.wav" := wavHeader ]} ∅ ∅
               ∅ (fun _ => 4096) None
               (fun _ => "b") 0 (Some "sk-test") true (ExecRejected None)
               (mkChildProcess None None) None
               (Settled (mkResponse false "Unauthorized"
                           (Settled (mkJsonBody
                                       (Some "Incorrect API key provided")
                                       None))))
               "The user aborted a request." ∅ 0 []).

(** What the gateway sends to the renderer about a transcription result. *)
Definition announcement (result : TranscriptionResult) : Event :=
  match (if t_success result then truthy (text result) else None) with
  | Some t => IpcSend "transcription-completed" (Some t)
  | None => IpcSend "transcription-error"
              (Some (or_else (t_error result) "Unknown error"))
  end.

Definition is_ipc (e : Event) : bool :=
  match e with IpcSend _ _ => true | _ => false end.

(** A gateway on a host whose configuration reports no key. *)
Definition keyless_gateway : Main :=
  mkMain (Some idle_helper) true "api-key-invalid" quiet_host.

(** A gateway on a host holding one recording, whose remote endpoint
    answers with an empty transcript. *)
Definition silent_gateway : Main :=
  mkMain (Some idle_helper) true "api-key-invalid"
    (mkHost linux {[ "/data/audio/recording-a.wav" := wavHeader ]} ∅ ∅
            ∅ (fun _ => 4096) None
            (fun _ => "c") 0 (Some "sk-test") true
            (ExecRejected None) (mkChildProcess None None) None
            (Settled (mkResponse true "OK"
                        (Settled (mkJsonBody None (Some "")))))
            "The user aborted a request." ∅ 0 []).

(** A gateway before the helper has been created. *)
Definition early_gateway : Main :=
  mkMain None true "api-key-invalid"
    (mkHost linux ∅ ∅ ∅
            ∅ (fun _ => 4096) None (fun _ => "c") 0 (Some "sk-test") true
            (ExecRejected None) (mkChildProcess None None) None Overrun
            "" ∅ 0 []).

(** White space at either end of a string. *)
Definition starts_with_space (s : string) : bool :=
  match s with
  | String c _ => is_space c
  | EmptyString => false
  end.

Fixpoint ends_with_space (s : string) : bool :=
  match s with
  | EmptyString => false
  | String c EmptyString => is_space c
  | String _ s' => ends_with_space s'
  end.

(** The process launches recorded in a trace. *)
Definition is_exec (e : Event) : bool :=
  match e with Exec _ _ => true | _ => false end.

(** The three names of the microphone selection. *)
Definition selectionNames : list string := ["Microphone"; "Mic"; "Headset"].

Definition isSelectable (device : string) : bool :=
  existsb (fun name => includes name device) selectionNames.

Definition selection_log (found : option string) : list Event :=
  match found with
  | Some device =>
      [Console LLog ("Using detected microphone device: " ++ device)]
  | None => []
  end.

(** A Windows host with FFmpeg located and two DirectShow devices. *)
Definition windows_armed : St :=
  mkSt (mkAudioHelper false (Some "C:\audio\recording-a.wav") None
                      "C:\audio" (Some "C:\ffmpeg\ffmpeg.exe"))
       (mkHost win32 ∅ ∅ ∅ ∅ (fun _ => 4096) None (fun _ => "a") 0 None false
               (ExecRejected (Some dshow_listing))
               (mkChildProcess (Some 4242) None) None Overrun "" ∅ 0 []).

(** A host on which FFmpeg is installed. *)
Definition ffmpeg_host : Host :=
  mkHost linux ∅ ∅ ∅ ∅ (fun _ => 4096) None (fun _ => "a") 0 None false
         (ExecResolved ("/usr/bin/ffmpeg" ++ String newline "") "")
         (mkChildProcess None None) None Overrun "" ∅ 0 [].

(** The names of a listing that [cleanupAudioDirectory] removes. *)
Definition wavs (names : list string) : list string :=
  List.filter (fun file => endsWith file ".wav") names.

(** A directory listing for the examples: the files of the map whose path
    is the directory, a slash, and a name without a slash. *)
Definition posix_entries (h : Host) (dir : string) : list string :=
  omap (fun kv : string * list byte =>
          let k := fst kv in
          let n := String.length dir in
          if String.prefix (dir ++ "/") k
             && negb (includes "/" (substring (S n) (String.length k) k))
          then Some (substring (S n) (String.length k) k) else None)
       (map_to_list (files h)).

Definition posix_fs : FsLib := {| dir_entries := posix_entries |}.


(** The same store when the system refuses to remove its recordings. *)
Definition locked_store : St :=
  mkSt idle_helper
       (mkHost linux
               (<[ "/data/audio/recording-a.wav" := wavHeader ]>
                  {[ "/data/audio/recording-b.wav" := wavHeader ]})
               {[ "/data/audio" ]} ∅
               ({[ "/data/audio/recording-a.wav" ]}
                  ∪ {[ "/data/audio/recording-b.wav" ]})
               (fun _ => 4096) None
               (fun _ => "c") 0 None false (ExecRejected None)
               (mkChildProcess None None) None Overrun "" ∅ 0 []).

(** * Properties *)

(** The log does not change what the file system answers. *)
Lemma existsSync_with_trace f t h :
  existsSync f (with_trace t h) = existsSync f h.
Proof. reflexivity. Qed.

Lemma stat_size_with_trace f t h :
  stat_size f (with_trace t h) = stat_size f h.
Proof. reflexivity. Qed.


(** Unfolding of the monad and of the primitive effects. *)
Ltac run :=
  unfold try_catch, try_finally, bind, ret, gets, modify, throw,
    console_log, console_warn, console_error, emit;
  simpl; rewrite ?existsSync_with_trace, ?stat_size_with_trace.

(** ** Fallback synthesizer *)

Lemma simulateRecording_returns s : exists r, fst (simulateRecording s) = Ret r.
Proof.
  unfold simulateRecording, writeFileSync. run.
  destruct (currentRecordingPath (this s)) as [p|]; run; [|eauto].
  destruct (bool_decide (p ∈ dirs (host s))); run; [eauto|].
  destruct (bool_decide (p ∈ refused (host s))); run; eauto.
Qed.

(** What a run of the synthesizer does, by cases on the write. *)
Lemma simulateRecording_cases s :
  (exists p,
      currentRecordingPath (this s) = Some p /\
      (p ∉ dirs (host s)) /\ (p ∉ refused (host s)) /\
      simulateRecording s =
        (Ret (mkRecordingResult true None (Some p)),
         mkSt (set_isRecording true (this s))
              (with_files (<[p := wavHeader]> (files (host s))) (host s))))
  \/
  (exists msg,
      (currentRecordingPath (this s) = None \/
       exists p, currentRecordingPath (this s) = Some p /\
                 (p ∈ dirs (host s) \/ p ∈ refused (host s))) /\
      simulateRecording s =
        (Ret (mkRecordingResult false
                (Some ("Failed to simulate recording: " ++ msg)) None),
         mkSt (this s)
              (with_trace (trace (host s) ++
                 [Console LError ("Error simulating recording: " ++ msg)])
                 (host s)))).
Proof.
  unfold simulateRecording, writeFileSync. run.
  destruct s as [a h]; simpl.
  destruct (currentRecordingPath a) as [p|] eqn:Hp; run.
  - destruct (bool_decide_reflect (p ∈ dirs h)) as [Hd|Hd]; run.
    { right. eexists. split; [right; eauto|reflexivity]. }
    destruct (bool_decide_reflect (p ∈ refused h)) as [Hr|Hr]; run.
    { right. eexists. split; [right; eauto|reflexivity]. }
    left. exists p. repeat split; auto.
    unfold set_this, set_isRecording; simpl. rewrite ?Hp. reflexivity.
  - right. eexists. split; [left; reflexivity|reflexivity].
Qed.

(** C3. Every successful run of [simulateRecording] leaves, at the current
    recording path, a file that is exactly the fixed 44-byte header, and
    that header is a well-formed RIFF/WAVE file declaring PCM, one channel,
    44100 Hz, 16 bits per sample and a data chunk of zero bytes. *)
Theorem simulateRecording_writes_wav s r s' :
  simulateRecording s = (Ret r, s') ->
  success r = true ->
  exists p,
    currentRecordingPath (this s) = Some p /\
    path r = Some p /\
    files (host s') !! p = Some wavHeader /\
    length wavHeader = 44%nat /\
    parse_wav wavHeader = Some (mkWavInfo 1 1 44100 16 0).
Proof.
  intros Hrun Hok.
  destruct (simulateRecording_cases s)
    as [(p & Hp & _ & _ & Hs)|(msg & _ & Hs)];
    rewrite Hs in Hrun; injection Hrun as <- <-; simpl in Hok;
    [|discriminate].
  exists p. repeat split; auto.
  simpl. apply lookup_insert_eq.
Qed.

Lemma simulateRecording_writes_wav_witness :
  exists p,
    currentRecordingPath (this capture_armed) = Some p /\
    path (mkRecordingResult true None (Some "/data/audio/recording-a.wav"))
      = Some p /\
    files (host (snd (simulateRecording capture_armed))) !! p
      = Some wavHeader /\
    length wavHeader = 44%nat /\
    parse_wav wavHeader = Some (mkWavInfo 1 1 44100 16 0).
Proof.
  apply (simulateRecording_writes_wav capture_armed _ _);
    [vm_compute; reflexivity | reflexivity].
Defined.

(** ** Recording controller: what [stopRecording] leaves behind *)

(** Termination either completes, dropping the handle, or (off Windows,
    where [kill()] is not guarded) throws what [kill()] threw. *)
Lemma terminate_cases p a h :
  terminate p (mkSt a h) =
    (Ret tt,
     mkSt (set_recordingProcess None a)
          (with_trace
             (trace h ++ terminate_events (platform h) p (taskkill_error h)) h))
  \/
  (exists e, is_win32 (platform h) = false /\ kill_error p = Some e /\
             terminate p (mkSt a h) =
               (Throw e, mkSt a (with_trace (trace h ++ [Kill (pid p)]) h))).
Proof.
  unfold terminate, terminate_events, kill, taskkill, sleep. run.
  destruct (is_win32 (platform h)) eqn:Hw; run.
  - left. destruct (kill_error p); run.
    { unfold with_trace; simpl. rewrite <- !app_assoc. reflexivity. }
    destruct (truthy_pid (pid p)); run.
    + destruct (taskkill_error h); run;
        unfold with_trace; simpl; rewrite <- !app_assoc; reflexivity.
    + unfold with_trace; simpl; rewrite <- !app_assoc; reflexivity.
  - destruct (kill_error p) as [e|]; run.
    + right. exists e. auto.
    + left. unfold with_trace; simpl; rewrite <- !app_assoc; reflexivity.
Qed.

(** Verification either finds the artifact and resets, or misses it and
    returns early, leaving [isRecording] and the path as they were. *)
Lemma verify_artifact_cases a h :
  (exists f,
      truthy (currentRecordingPath a) = Some f /\ existsSync f h = false /\
      verify_artifact (mkSt a h) =
        (Ret (mkRecordingResult false
                (Some "Recording file not found after stopping") None),
         mkSt a (with_trace (trace h ++
           [Console LError
              "Error: Recording file does not exist after stopping recording"])
           h)))
  \/
  ((forall f, truthy (currentRecordingPath a) = Some f ->
              existsSync f h = true) /\
   exists t,
     verify_artifact (mkSt a h) =
       (Ret (mkRecordingResult true None (currentRecordingPath a)),
        mkSt (set_currentRecordingPath None (set_isRecording false a))
             (with_trace (trace h ++ t) h))).
Proof.
  unfold verify_artifact, stop_reset. run.
  destruct (truthy (currentRecordingPath a)) as [f|] eqn:Hf; run.
  - destruct (existsSync f h) eqn:He; run.
    + right. split; [intros f' [= <-]; exact He|].
      destruct (stat_size f h <? 100); run.
      * eexists [_]. reflexivity.
      * exists []. unfold with_trace; simpl. rewrite app_nil_r.
        destruct h; reflexivity.
    + left. exists f. auto.
  - right. split; [discriminate|]. exists [].
    unfold with_trace; simpl. rewrite app_nil_r. destruct h; reflexivity.
Qed.

(** The three ways a call can end: rejected while idle, reset to idle, or
    returned early with the session still marked as recording. *)
Lemma stopRecording_state s :
  let a' := this (snd (stopRecording s)) in
  (isRecording (this s) = false /\ a' = this s) \/
  (isRecording (this s) = true /\
   isRecording a' = false /\ currentRecordingPath a' = None) \/
  (isRecording (this s) = true /\
   isRecording a' = true /\
   currentRecordingPath a' = currentRecordingPath (this s) /\
   exists p f, recordingProcess (this s) = Some p /\
               truthy (currentRecordingPath (this s)) = Some f /\
               existsSync f (host s) = false).
Proof.
  destruct s as [a h]. unfold stopRecording. run.
  destruct (isRecording a) eqn:Hrec; simpl; [|left; auto].
  right.
  destruct (recordingProcess a) as [p|] eqn:Hproc.
  - destruct (terminate_cases p a h) as [Ht|(e & _ & _ & Ht)]; rewrite Ht.
    + match goal with
      | |- context [verify_artifact (mkSt ?a1 ?h1)] =>
          destruct (verify_artifact_cases a1 h1)
            as [(f & Hf & He & Hv)|(_ & t & Hv)]; rewrite Hv
      end; simpl.
      * right. rewrite Hrec. repeat (split; [reflexivity|]).
        exists p, f. auto.
      * left. auto.
    + run. left. auto.
  - destruct (truthy (currentRecordingPath a)) as [f|] eqn:Hf; run.
    + destruct (existsSync f h) eqn:He; run; [|left; auto].
      destruct (verify_artifact_cases a h)
        as [(f' & Hf' & He' & Hv)|(_ & t & Hv)]; rewrite Hv; simpl.
      * congruence.
      * left. auto.
    + destruct (verify_artifact_cases a h)
        as [(f' & Hf' & He' & Hv)|(_ & t & Hv)]; rewrite Hv; simpl.
      * congruence.
      * left. auto.
Qed.

(** C1 (evaluation at the failing input). A session started by the
    real-capture path holds a process handle; when its artifact is missing,
    [stopRecording] reports the missing artifact and returns with
    [isRecording] still true and the path still set, whereas the handler of
    every thrown failure resets both. *)
Theorem stopRecording_missing_artifact_skips_reset :
  fst (startFFmpegRecording capture_armed)
    = Ret (mkRecordingResult true None (Some "/data/audio/recording-a.wav")) /\
  isRecording (this capture_running) = true /\
  recordingProcess (this capture_running)
    = Some (mkChildProcess (Some 4242) None) /\
  existsSync "/data/audio/recording-a.wav" (host capture_running) = false /\
  fst (stopRecording capture_running)
    = Ret (mkRecordingResult false
             (Some "Recording file not found after stopping") None) /\
  isRecording (this (snd (stopRecording capture_running))) = true /\
  currentRecordingPath (this (snd (stopRecording capture_running)))
    = Some "/data/audio/recording-a.wav".
Proof. vm_compute. repeat split; reflexivity. Qed.

(** X27. Every other way through [stopRecording] of an active session resets:
    without a process handle, or with the artifact in place, the controller
    is idle afterwards, whether or not termination or verification threw. *)
Lemma stopRecording_resets s :
  isRecording (this s) = true ->
  (recordingProcess (this s) = None \/
   forall f, truthy (currentRecordingPath (this s)) = Some f ->
             existsSync f (host s) = true) ->
  isRecording (this (snd (stopRecording s))) = false /\
  currentRecordingPath (this (snd (stopRecording s))) = None.
Proof.
  intros Hrec Hok.
  destruct (stopRecording_state s)
    as [[Hf _]|[(_ & H1 & H2)|(_ & _ & _ & p & f & Hp & Hf & He)]].
  - congruence.
  - auto.
  - destruct Hok as [Hn|Hex]; [congruence|].
    rewrite (Hex f Hf) in He. discriminate.
Qed.

(** The early return, in general: a session that holds a process handle
    whose termination does not throw, and whose artifact is missing, ends
    its [stopRecording] with the flag and the path as they were. *)
Lemma stopRecording_early_return s p f :
  isRecording (this s) = true ->
  recordingProcess (this s) = Some p ->
  truthy (currentRecordingPath (this s)) = Some f ->
  existsSync f (host s) = false ->
  is_win32 (platform (host s)) = true \/ kill_error p = None ->
  fst (stopRecording s)
    = Ret (mkRecordingResult false
             (Some "Recording file not found after stopping") None) /\
  isRecording (this (snd (stopRecording s))) = true /\
  currentRecordingPath (this (snd (stopRecording s)))
    = currentRecordingPath (this s).
Proof.
  intros Hrec Hproc Hf He Hkill. destruct s as [a h]; simpl in *.
  unfold stopRecording. run. rewrite Hrec. simpl. rewrite Hproc.
  destruct (terminate_cases p a h) as [Ht|(e & Hw & Hk & _)].
  - rewrite Ht.
    match goal with
    | |- context [verify_artifact (mkSt ?a1 ?h1)] =>
        destruct (verify_artifact_cases a1 h1)
          as [(f' & _ & _ & Hv)|(Hex & _)]
    end.
    + rewrite Hv. simpl. auto.
    + specialize (Hex f Hf). rewrite existsSync_with_trace in Hex.
      congruence.
  - destruct Hkill; congruence.
Qed.

(** ** Recording controller: invariant *)

Lemma recording_has_path_spec a :
  recording_has_path a = true <->
  (isRecording a = true -> currentRecordingPath a <> None).
Proof.
  unfold recording_has_path.
  destruct (isRecording a), (currentRecordingPath a); simpl;
    split; intros; try reflexivity; try discriminate; try congruence.
  exfalso. apply H; reflexivity.
Qed.

Section ControllerProperties.
Context {node : NodeLib}.

(** [startRecording] by cases: rejected, started, or failed to write. *)
Lemma startRecording_cases s :
  (isRecording (this s) = true /\
   startRecording s =
     (Ret (mkRecordingResult false (Some "Already recording") None), s))
  \/
  (isRecording (this s) = false /\
   exists p s',
     startRecording s = (Ret (mkRecordingResult true None (Some p)), s') /\
     isRecording (this s') = true /\
     currentRecordingPath (this s') = Some p /\
     recordingProcess (this s') = recordingProcess (this s) /\
     files (host s') !! p = Some wavHeader)
  \/
  (isRecording (this s) = false /\
   exists msg p s',
     startRecording s =
       (Ret (mkRecordingResult false
               (Some ("Failed to simulate recording: " ++ msg)) None), s') /\
     isRecording (this s') = false /\
     currentRecordingPath (this s') = Some p).
Proof.
  destruct s as [a h]. unfold startRecording, uuidv4. run.
  destruct (isRecording a) eqn:Hrec; [left; auto|right].
  match goal with
  | |- context [simulateRecording ?s1] =>
      destruct (simulateRecording_cases s1)
        as [(p & Hp & _ & _ & Hs)|(msg & _ & Hs)]; rewrite Hs
  end; simpl.
  - left. split; [reflexivity|]. do 2 eexists. split; [reflexivity|].
    simpl. repeat split; auto. apply lookup_insert_eq.
  - right. split; [reflexivity|]. do 3 eexists. split; [reflexivity|].
    simpl. auto.
Qed.

Lemma exec_preserves s o :
  recording_has_path (this s) = true ->
  recording_has_path (this (exec s o)) = true.
Proof.
  intros Hinv. destruct o; simpl.
  - destruct (startRecording_cases s)
      as [[_ Hs]|[(_ & p & s' & Hs & Hr & Hp & _)|(_ & m & p & s' & Hs & Hr & Hp)]];
      rewrite Hs; simpl; auto;
      unfold recording_has_path; rewrite Hr, Hp; reflexivity.
  - destruct (simulateRecording_cases s)
      as [(p & Hp & _ & _ & Hs)|(msg & _ & Hs)]; rewrite Hs; simpl; auto.
    unfold recording_has_path; simpl. rewrite Hp. reflexivity.
  - destruct (stopRecording_state s)
      as [[_ Hs]|[(_ & H1 & H2)|(_ & H1 & H2 & p & f & _ & Hf & _)]].
    + rewrite Hs. exact Hinv.
    + unfold recording_has_path. rewrite H1. reflexivity.
    + unfold recording_has_path. rewrite H1, H2.
      destruct (currentRecordingPath (this s)); [reflexivity|discriminate].
  - exact Hinv.
Qed.

(** C10. From a state in which a set recording flag comes with a path,
    every sequence of [startRecording], [simulateRecording],
    [stopRecording] and [getRecordingStatus] calls ends in such a state,
    and [getRecordingStatus] there does not answer recording with a null
    path. *)
Theorem recording_has_path_invariant (ops : list Op) (s : St) :
  recording_has_path (this s) = true ->
  recording_has_path (this (fold_left exec ops s)) = true /\
  fst (getRecordingStatus (fold_left exec ops s))
    <> Ret (mkRecordingStatus true None).
Proof.
  revert s. induction ops as [|o ops IH]; intros s Hinv; simpl.
  - split; [exact Hinv|].
    unfold getRecordingStatus; run. intros [= Hr Hp].
    apply recording_has_path_spec in Hinv; auto.
  - apply IH. apply exec_preserves. exact Hinv.
Qed.

End ControllerProperties.

Lemma recording_has_path_invariant_witness :
  recording_has_path
    (this (fold_left (exec (node := posix))
             [OpStartRecording; OpGetRecordingStatus; OpStopRecording;
              OpSimulateRecording] idle)) = true /\
  fst (getRecordingStatus
         (fold_left (exec (node := posix))
            [OpStartRecording; OpGetRecordingStatus; OpStopRecording;
             OpSimulateRecording] idle))
    <> Ret (mkRecordingStatus true None).
Proof.
  apply (recording_has_path_invariant (node := posix)). reflexivity.
Defined.

(** ** Recording controller: the session state machine *)

Section StateMachine.
Context {node : NodeLib}.



End StateMachine.



(** ** Transcription client *)

Lemma existsSync_file f h data :
  files h !! f = Some data -> existsSync f h = true.
Proof.
  intros Hf. unfold existsSync. rewrite Hf.
  rewrite bool_decide_eq_true_2; [reflexivity|eauto].
Qed.

Section ClientProperties.
Context {node : NodeLib}.

(** C5. When nothing exists at the resolved location (the argument itself
    if absolute, else the argument joined under the audio directory),
    [transcribeAudio] fails with the file-not-found error, and the trace
    gains one console line and no network request. *)
Theorem transcribeAudio_missing_file (audioPath : string) (s : St) :
  existsSync (resolve (audioDir (this s)) audioPath) (host s) = false ->
  transcribeAudio audioPath s =
    (Ret (mkTranscriptionResult false (Some "Audio file not found") None),
     mkSt (this s)
          (with_trace
             (trace (host s) ++
                [Console LError
                   ("Audio file not found at path: "
                      ++ resolve (audioDir (this s)) audioPath)])
             (host s))) /\
  requests (trace (host (snd (transcribeAudio audioPath s))))
    = requests (trace (host s)).
Proof.
  intros Hmiss. destruct s as [a h]; simpl in *.
  assert (Hrun : transcribeAudio audioPath (mkSt a h) =
    (Ret (mkTranscriptionResult false (Some "Audio file not found") None),
     mkSt a (with_trace
               (trace h ++ [Console LError
                  ("Audio file not found at path: "
                     ++ resolve (audioDir a) audioPath)]) h))).
  { unfold transcribeAudio. run. rewrite Hmiss. reflexivity. }
  split; [exact Hrun|].
  rewrite Hrun. simpl. unfold requests.
  rewrite List.filter_app. simpl. apply app_nil_r.
Qed.

(** C6. When the file exists and the configuration holds no usable key
    (absent or empty), [transcribeAudio] fails with the key-not-configured
    error and changes nothing: in particular no network request is made. *)
Theorem transcribeAudio_missing_key (audioPath : string) (s : St) :
  existsSync (resolve (audioDir (this s)) audioPath) (host s) = true ->
  truthy (cfg_apiKey (host s)) = None ->
  transcribeAudio audioPath s =
    (Ret (mkTranscriptionResult false
            (Some "OpenAI API key not configured") None), s) /\
  requests (trace (host (snd (transcribeAudio audioPath s))))
    = requests (trace (host s)).
Proof.
  intros Hex Hkey. destruct s as [a h]; simpl in *.
  assert (Hrun : transcribeAudio audioPath (mkSt a h) =
    (Ret (mkTranscriptionResult false
            (Some "OpenAI API key not configured") None), mkSt a h)).
  { unfold transcribeAudio. run. rewrite Hex. simpl. rewrite Hkey.
    reflexivity. }
  split; [exact Hrun|]. rewrite Hrun. reflexivity.
Qed.

(** C7. When the file is readable, a key is configured and the request
    outlives the 30-second timer, the timer fires and aborts the request
    after it was sent, the timer is cleared, and only then the call
    returns, failing with the abort error; the timer is not pending
    afterwards. *)
Theorem transcribeAudio_timeout
    (audioPath : string) (s : St) (key : string) (data : list byte) :
  files (host s) !! resolve (audioDir (this s)) audioPath = Some data ->
  truthy (cfg_apiKey (host s)) = Some key ->
  exceeds_timer (host s) = true ->
  let id := timer_next (host s) in
  let s' := snd (transcribeAudio audioPath s) in
  fst (transcribeAudio audioPath s) = Ret (RequestTimeout (host s)) /\
  trace (host s') =
    (trace (host s) ++
      [ TimerSet id 30000;
        Fetch WHISPER_URL ("Bearer " ++ key)%string
              (path_basename (resolve (audioDir (this s)) audioPath)) data;
        TimerFired id;
        Abort;
        TimerCleared id;
        Console LError
          ("Error transcribing audio: " ++ abort_message (host s))%string ])%list /\
  (id ∉ timers (host s')).
Proof.
  intros Hfile Hkey Hover. destruct s as [a h]; simpl in *.
  pose proof (existsSync_file _ _ _ Hfile) as Hex.
  unfold transcribeAudio, readFileSync, setTimeout, fetch, clearTimeout,
    await_abortable, exceeds_timer, RequestTimeout in *.
  run. rewrite Hex. simpl. rewrite Hkey. simpl. rewrite Hfile. simpl.
  destruct (fetch_result h) as [response| |]; try discriminate; simpl.
  - destruct (json response) as [body| |]; try discriminate.
    destruct (resp_ok response); simpl;
      (split; [reflexivity|]);
      (split; [rewrite <- !app_assoc; reflexivity|]);
      apply not_elem_of_difference; right; apply elem_of_singleton;
      reflexivity.
  - split; [reflexivity|].
    split; [rewrite <- !app_assoc; reflexivity|].
    apply not_elem_of_difference; right; apply elem_of_singleton;
    reflexivity.
Qed.

End ClientProperties.

Lemma transcribeAudio_missing_file_witness :
  fst (transcribeAudio (node := posix) "recording-a.wav" idle)
    = Ret (mkTranscriptionResult false (Some "Audio file not found") None) /\
  requests (trace (host (snd (transcribeAudio (node := posix)
                                 "recording-a.wav" idle))))
    = requests (trace (host idle)).
Proof.
  destruct (transcribeAudio_missing_file (node := posix)
              "recording-a.wav" idle) as [Hrun Hreq];
    [vm_compute; reflexivity|].
  split; [rewrite Hrun; reflexivity | exact Hreq].
Defined.

Lemma transcribeAudio_missing_key_witness :
  transcribeAudio (node := posix) "/data/audio/recording-a.wav" without_key
    = (Ret (mkTranscriptionResult false
              (Some "OpenAI API key not configured") None), without_key) /\
  requests (trace (host (snd (transcribeAudio (node := posix)
                                 "/data/audio/recording-a.wav" without_key))))
    = requests (trace (host without_key)).
Proof.
  apply (transcribeAudio_missing_key (node := posix));
    [vm_compute; reflexivity | reflexivity].
Defined.

Lemma transcribeAudio_timeout_witness :
  fst (transcribeAudio (node := posix) "recording-a.wav" with_recording)
    = Ret (mkTranscriptionResult false
             (Some "Failed to transcribe audio: The user aborted a request.")
             None).
Proof.
  apply (transcribeAudio_timeout (node := posix) "recording-a.wav"
           with_recording "sk-test" wavHeader);
    [vm_compute; reflexivity | reflexivity | reflexivity].
Defined.

(** ** Command gateway *)

Section GatewayProperties.
Context {node : NodeLib}.



End GatewayProperties.



(** ** Device discovery *)

Lemma log_to_nil s : log_to [] s = s.
Proof.
  destruct s as [a h]. unfold log_to, with_trace; simpl.
  rewrite app_nil_r. destruct h; reflexivity.
Qed.

Lemma log_to_app l1 l2 s : log_to l2 (log_to l1 s) = log_to (l1 ++ l2) s.
Proof.
  unfold log_to, with_trace; simpl. rewrite app_assoc. reflexivity.
Qed.

Lemma emit_log_to e (s : St) : emit e s = (Ret tt, log_to [e] s).
Proof. reflexivity. Qed.

(** The inner loop stops at the first name, in the order of the list, that
    the device contains, and logs the device exactly when there is one. *)
Lemma scanNames_find device names s :
  scanNames device names s =
    (Ret (List.find (fun name => includes name device) names),
     log_to (if existsb (fun name => includes name device) names
             then [likely_line device] else []) s).
Proof.
  induction names as [|name rest IH]; simpl.
  - rewrite log_to_nil. reflexivity.
  - destruct (includes name device); simpl; [reflexivity|exact IH].
Qed.

(** The outer loop logs the likely microphones, once each, in order. *)
Lemma scanDevices_marks devices s :
  scanDevices devices s =
    (Ret tt,
     log_to (map likely_line (List.filter isLikelyMicrophone devices)) s).
Proof.
  revert s. induction devices as [|d rest IH]; intros s;
    cbn [scanDevices List.filter map].
  - rewrite log_to_nil. reflexivity.
  - unfold bind. rewrite scanNames_find. fold (isLikelyMicrophone d).
    rewrite IH, log_to_app.
    destruct (isLikelyMicrophone d); reflexivity.
Qed.

Lemma append_inj_r (a b c : string) : a ++ b = a ++ c -> b = c.
Proof.
  induction a as [|x a IH]; simpl; intros Heq; [exact Heq|].
  injection Heq as Heq. auto.
Qed.

Lemma likely_line_inj d d' : likely_line d = likely_line d' -> d = d'.
Proof.
  unfold likely_line. intros [= Heq]. exact (append_inj_r _ _ _ Heq).
Qed.

Lemma diagnostic_with_trace t h : diagnostic (with_trace t h) = diagnostic h.
Proof. reflexivity. Qed.

(** The first loop pushes the marked names onto the accumulator. *)
Lemma collectDevices_marked lines acc s :
  collectDevices lines acc s =
    (Ret (acc ++ marked_names lines)%list,
     log_to (map found_line (marked_names lines)) s).
Proof.
  revert acc s. unfold marked_names.
  induction lines as [|line rest IH]; intros acc s;
    cbn [collectDevices List.filter].
  - simpl. rewrite app_nil_r, log_to_nil. reflexivity.
  - fold (has_marker line). destruct (has_marker line); [|apply IH].
    cbn [omap list_omap]. destruct (match_quoted line) as [name|]; [|apply IH].
    unfold bind, console_log. rewrite emit_log_to, IH, log_to_app.
    rewrite <- app_assoc. reflexivity.
Qed.

Lemma execFileAsync_stderr_diagnostic file args s :
  execFileAsync_stderr file args s =
    (Ret (diagnostic (host s)), log_to [Exec file args] s).
Proof.
  unfold execFileAsync_stderr, diagnostic. unfold bind, gets.
  rewrite emit_log_to. simpl.
  destruct (exec_result (host s)); reflexivity.
Qed.

(** On Windows the result is parsed from the diagnostic stream and then
    scanned for likely microphones. *)
Lemma listAudioDevices_win32 s ffmpeg :
  truthy (ffmpegPath (this s)) = Some ffmpeg ->
  is_win32 (platform (host s)) = true ->
  let devices := marked_names (split_on newline (diagnostic (host s))) in
  let parsed :=
    log_to (listing_log ffmpeg (host s) ++ map found_line devices
              ++ [Console LLog ("Detected audio devices: "
                                  ++ String.concat ", " devices)]) s in
  listAudioDevices s = (Ret devices, snd (scanDevices devices parsed)).
Proof.
  intros Hff Hwin devices parsed.
  unfold listAudioDevices. unfold bind at 1. unfold gets at 1.
  rewrite Hff. unfold try_catch, bind, gets, console_log.
  rewrite !emit_log_to, execFileAsync_stderr_diagnostic.
  rewrite !emit_log_to, !log_to_app. simpl host. rewrite Hwin.
  rewrite collectDevices_marked, emit_log_to, !log_to_app.
  rewrite scanDevices_marks. simpl.
  subst parsed devices. unfold listing_log.
  rewrite scanDevices_marks. simpl snd.
  rewrite ?diagnostic_with_trace, ?log_to_app. simpl.
  rewrite <- ?app_assoc. reflexivity.
Qed.

(** Elsewhere the parsing is skipped. *)
Lemma listAudioDevices_elsewhere s ffmpeg :
  truthy (ffmpegPath (this s)) = Some ffmpeg ->
  is_win32 (platform (host s)) = false ->
  listAudioDevices s = (Ret [], log_to (listing_log ffmpeg (host s)) s).
Proof.
  intros Hff Hwin.
  unfold listAudioDevices. unfold bind at 1. unfold gets at 1.
  rewrite Hff. unfold try_catch, bind, gets, console_log.
  rewrite !emit_log_to, execFileAsync_stderr_diagnostic.
  rewrite !emit_log_to, !log_to_app. simpl host. rewrite Hwin.
  reflexivity.
Qed.

(** Without FFmpeg nothing is invoked. *)
Lemma listAudioDevices_unavailable s :
  truthy (ffmpegPath (this s)) = None ->
  listAudioDevices s =
    (Ret [], log_to [Console LLog "Cannot list audio devices: FFmpeg not found"] s).
Proof.
  intros Hff. unfold listAudioDevices. unfold bind at 1. unfold gets at 1.
  rewrite Hff. reflexivity.
Qed.

(** *** The quoted name of a line *)

Lemma append_cons c (a b : string) : String c a ++ b = String c (a ++ b).
Proof. reflexivity. Qed.

Lemma span_unquoted_app name post :
  quote_free name = true ->
  span_unquoted (name ++ String dquote post) = (name, String dquote post).
Proof.
  induction name as [|c name IH]; simpl; intros Hfree.
  - reflexivity.
  - destruct (Ascii.eqb c dquote); simpl in Hfree; [discriminate|].
    rewrite (IH Hfree). reflexivity.
Qed.

Lemma span_unquoted_spec s run rest :
  span_unquoted s = (run, rest) ->
  s = run ++ rest /\ quote_free run = true /\
  (rest = "" \/ exists r, rest = String dquote r).
Proof.
  revert run rest. induction s as [|c s IH]; simpl; intros run rest Hspan.
  - injection Hspan as <- <-. auto.
  - destruct (Ascii.eqb c dquote) eqn:Hc.
    + injection Hspan as <- <-. apply Ascii.eqb_eq in Hc. subst c.
      split; [reflexivity|]. split; [reflexivity|]. right. eauto.
    + destruct (span_unquoted s) as [run0 rest0].
      injection Hspan as <- <-.
      destruct (IH _ _ eq_refl) as (Hs & Hfree & Hrest).
      split; [rewrite append_cons; f_equal; exact Hs|]. split; [|exact Hrest].
      simpl. rewrite Hc. exact Hfree.
Qed.

Lemma match_quoted_step c s :
  match_quoted (String c s) =
    if Ascii.eqb c dquote then
      match matches_here s with
      | Some name => Some name
      | None => match_quoted s
      end
    else match_quoted s.
Proof.
  simpl. unfold matches_here.
  destruct (Ascii.eqb c dquote); [|reflexivity].
  destruct (span_unquoted s) as [[|a run] [|b rest]]; reflexivity.
Qed.

Lemma matches_here_Some s name :
  matches_here s = Some name -> quoted_at "" name
    match snd (span_unquoted s) with String _ r => r | EmptyString => "" end
    (String dquote s).
Proof.
  unfold matches_here.
  destruct (span_unquoted s) as [run rest] eqn:Hspan.
  destruct (span_unquoted_spec _ _ _ Hspan) as (Hs & Hfree & Hrest).
  destruct run as [|a run]; [discriminate|].
  destruct rest as [|b rest]; [discriminate|].
  intros [= <-]. destruct Hrest as [Hrest|[r Hrest]]; [discriminate|].
  injection Hrest as -> ->. simpl.
  split; [change ("" ++ ?x) with x; f_equal; exact Hs|].
  split; [discriminate|exact Hfree].
Qed.

Lemma matches_here_quoted name post :
  name <> "" -> quote_free name = true ->
  matches_here (name ++ String dquote post) = Some name.
Proof.
  intros Hne Hfree. unfold matches_here.
  rewrite (span_unquoted_app _ _ Hfree).
  destruct name; [congruence|reflexivity].
Qed.

(** The result of the match is the leftmost quoted name of the line. *)
Lemma match_quoted_Some line name :
  match_quoted line = Some name ->
  exists pre post,
    quoted_at pre name post line /\
    forall pre' name' post',
      quoted_at pre' name' post' line ->
      (String.length pre <= String.length pre')%nat.
Proof.
  revert name. induction line as [|c s IH]; intros name Hm; [discriminate|].
  rewrite match_quoted_step in Hm.
  assert (Hrec : match_quoted s = Some name ->
    (forall name' post', ~ quoted_at "" name' post' (String c s)) ->
    exists pre post,
      quoted_at pre name post (String c s) /\
      forall pre' name' post',
        quoted_at pre' name' post' (String c s) ->
        (String.length pre <= String.length pre')%nat).
  { intros Hs Hnot. destruct (IH _ Hs) as (pre & post & (Hl & Hn & Hf) & Hmin).
    exists (String c pre), post. split.
    - split; [rewrite append_cons; f_equal; exact Hl|auto].
    - intros [|c' pre'] name' post' Hq.
      + exfalso. exact (Hnot _ _ Hq).
      + destruct Hq as (Hl' & Hn' & Hf'). rewrite append_cons in Hl'.
        injection Hl' as _ Hl'. simpl.
        apply le_n_S. apply (Hmin pre' name' post'). split; auto. }
  destruct (Ascii.eqb c dquote) eqn:Hc.
  - apply Ascii.eqb_eq in Hc. subst c.
    destruct (matches_here s) as [n|] eqn:Hhere.
    + injection Hm as ->. do 2 eexists.
      split; [exact (matches_here_Some _ _ Hhere)|].
      intros. simpl. lia.
    + apply Hrec; [exact Hm|].
      intros name' post' (Hl & Hn & Hf).
      change ("" ++ ?x) with x in Hl. injection Hl as Hl.
      rewrite Hl, (matches_here_quoted _ _ Hn Hf) in Hhere. discriminate.
  - apply Hrec; [exact Hm|].
    intros name' post' (Hl & _).
    change ("" ++ ?x) with x in Hl. injection Hl as Hl _.
    subst c. discriminate.
Qed.

(** No match means no quoted name anywhere on the line. *)
Lemma match_quoted_None line :
  match_quoted line = None ->
  forall pre name post, ~ quoted_at pre name post line.
Proof.
  induction line as [|c s IH]; intros Hm pre name post (Hl & Hn & Hf).
  - destruct pre; discriminate.
  - rewrite match_quoted_step in Hm. destruct pre as [|c' pre].
    + change ("" ++ ?x) with x in Hl. injection Hl as -> ->.
      change (Ascii.eqb dquote dquote) with true in Hm. cbv iota in Hm.
      rewrite (matches_here_quoted _ _ Hn Hf) in Hm. discriminate.
    + rewrite append_cons in Hl. injection Hl as <- Hl.
      assert (Hs : match_quoted s = None).
      { destruct (Ascii.eqb c dquote); [|exact Hm].
        destruct (matches_here s); [discriminate|exact Hm]. }
      apply (IH Hs pre name post). split; auto.
Qed.

Lemma In_marked_names name lines :
  In name (marked_names lines) ->
  exists line, In line lines /\ has_marker line = true /\
               match_quoted line = Some name.
Proof.
  unfold marked_names. intros Hin.
  apply list_elem_of_In, list_elem_of_omap in Hin.
  destruct Hin as (line & Hline & Hm).
  apply list_elem_of_In, List.filter_In in Hline.
  exists line. tauto.
Qed.

(** C8. Device discovery always returns a list of devices; unless that
    list is empty, the last thing discovery did was the microphone scan
    over exactly that list. The scan logs a device as a likely microphone
    exactly when its name contains one of Microphone, Mic, Audio, Input,
    Headset (case-sensitive), once per device and in order; and for each
    device the name that decides is the first of the five, in that order,
    that the device contains. *)
Theorem likely_microphone_marks (s : St) :
  exists devices,
    fst (listAudioDevices s) = Ret devices /\
    (devices = [] \/
     exists parsed,
       snd (listAudioDevices s) = snd (scanDevices devices parsed)) /\
    (forall s0,
        scanDevices devices s0 =
          (Ret tt,
           log_to (map likely_line (List.filter isLikelyMicrophone devices))
                  s0)) /\
    (forall d,
        In d devices ->
        (In (likely_line d)
            (map likely_line (List.filter isLikelyMicrophone devices)) <->
         exists name,
           In name ["Microphone"; "Mic"; "Audio"; "Input"; "Headset"] /\
           includes name d = true)) /\
    (forall d s0,
        scanNames d commonMicNames s0 =
          (Ret (List.find (fun name => includes name d)
                  ["Microphone"; "Mic"; "Audio"; "Input"; "Headset"]),
           log_to (if isLikelyMicrophone d then [likely_line d] else []) s0)).
Proof.
  assert (Hdisc : exists devices,
    fst (listAudioDevices s) = Ret devices /\
    (devices = [] \/
     exists parsed,
       snd (listAudioDevices s) = snd (scanDevices devices parsed))).
  { destruct (truthy (ffmpegPath (this s))) as [ffmpeg|] eqn:Hff.
    - destruct (is_win32 (platform (host s))) eqn:Hwin.
      + pose proof (listAudioDevices_win32 s ffmpeg Hff Hwin) as Hrun.
        simpl in Hrun. rewrite Hrun.
        eexists. split; [reflexivity|]. right. eexists. reflexivity.
      + rewrite (listAudioDevices_elsewhere s ffmpeg Hff Hwin).
        exists []. auto.
    - rewrite (listAudioDevices_unavailable s Hff). exists []. auto. }
  destruct Hdisc as (devices & Hret & Hlast).
  exists devices. split; [exact Hret|]. split; [exact Hlast|].
  split; [intros s0; apply scanDevices_marks|].
  split; [|intros d s0; apply scanNames_find].
  intros d Hd. rewrite in_map_iff. split.
  - intros (d' & Heq & Hin). apply likely_line_inj in Heq. subst d'.
    apply List.filter_In in Hin. destruct Hin as [_ Hlikely].
    unfold isLikelyMicrophone in Hlikely. apply existsb_exists in Hlikely.
    exact Hlikely.
  - intros Hname. exists d. split; [reflexivity|].
    apply List.filter_In. split; [exact Hd|].
    unfold isLikelyMicrophone. apply existsb_exists. exact Hname.
Qed.

(** C9 (amended). With FFmpeg located, on a Windows host
    [listAudioDevices] returns exactly the quoted names of the lines of
    the diagnostic output that carry the audio marker, in their order of
    appearance, each name being the leftmost non-empty quoted text of its
    line; on every other host it returns the empty list, whatever the
    output. *)
Theorem listAudioDevices_parses_on_windows (s : St) (ffmpeg : string) :
  truthy (ffmpegPath (this s)) = Some ffmpeg ->
  let lines := split_on newline (diagnostic (host s)) in
  fst (listAudioDevices s) =
    Ret (if is_win32 (platform (host s)) then marked_names lines else []) /\
  (forall name,
      In name (marked_names lines) ->
      exists line pre post,
        In line lines /\ includes "(audio)" line = true /\
        quoted_at pre name post line /\
        forall pre' name' post',
          quoted_at pre' name' post' line ->
          (String.length pre <= String.length pre')%nat).
Proof.
  intros Hff lines. split.
  - destruct (is_win32 (platform (host s))) eqn:Hwin.
    + pose proof (listAudioDevices_win32 s ffmpeg Hff Hwin) as Hrun.
      simpl in Hrun. rewrite Hrun. reflexivity.
    + rewrite (listAudioDevices_elsewhere s ffmpeg Hff Hwin). reflexivity.
  - intros name Hin.
    destruct (In_marked_names _ _ Hin) as (line & Hline & Hmark & Hm).
    destruct (match_quoted_Some _ _ Hm) as (pre & post & Hq & Hmin).
    exists line, pre, post. auto.
Qed.

Lemma listAudioDevices_parses_on_windows_witness :
  fst (listAudioDevices (listing_host win32))
    = Ret ["Microphone (Realtek Audio)"; "Line In"].
Proof.
  apply (listAudioDevices_parses_on_windows (listing_host win32)
           "/usr/bin/ffmpeg").
  reflexivity.
Defined.

(** C9 as stated fails off Windows: the same diagnostic output, carrying
    two marked lines with quoted names, yields no device on Linux. *)
Lemma listAudioDevices_ignores_output_on_linux :
  marked_names (split_on newline (diagnostic (host (listing_host linux))))
    = ["Microphone (Realtek Audio)"; "Line In"] /\
  fst (listAudioDevices (listing_host linux)) = Ret [] /\
  fst (listAudioDevices (listing_host linux))
    <> Ret (marked_names
              (split_on newline (diagnostic (host (listing_host linux))))).
Proof. vm_compute. repeat split; discriminate. Qed.

(** The microphone selection of [startWindowsRecording] looks for three of
    the five names only: a device named after its input jack is logged as a
    likely microphone by discovery, and is not the one selection finds. *)
Example selection_uses_three_names :
  isLikelyMicrophone "Line Input" = true /\
  isLikelyMicrophone "usb microphone" = false /\
  fst (selectDevice ["Line Input"; "USB Headset"] idle) = Ret (Some "USB Headset").
Proof. repeat split; reflexivity. Qed.

(** The pattern skips an empty pair of quotes and takes the next quoted
    text, which here starts inside the first pair. *)
Example match_quoted_skips_empty_quotes :
  match_quoted (String dquote (String dquote (" x" ++ String dquote "abc")))
    = Some " x".
Proof. reflexivity. Qed.

(** * Further properties *)

(** ** Recording controller: complete sessions *)

(** Verification of an artifact that is in place: the reset, after a
    warning when the file is shorter than 100 bytes. *)
Lemma verify_artifact_found a h f :
  truthy (currentRecordingPath a) = Some f ->
  existsSync f h = true ->
  verify_artifact (mkSt a h) =
    (Ret (mkRecordingResult true None (currentRecordingPath a)),
     mkSt (reset_helper a)
          (with_trace
             (trace h ++ (if stat_size f h <? 100 then [small_file_warning]
                          else []))
             h)).
Proof.
  intros Hf He. unfold verify_artifact, stop_reset. run.
  rewrite Hf. run. rewrite He. run.
  destruct (stat_size f h <? 100); run; [reflexivity|].
  unfold with_trace; simpl. rewrite app_nil_r. destruct h; reflexivity.
Qed.

Lemma truthy_Some_inv o f : truthy o = Some f -> o = Some f /\ f <> "".
Proof.
  destruct o as [x|]; simpl; [|discriminate].
  destruct (String.eqb x "") eqn:Hx; [discriminate|].
  intros [= <-]. split; [reflexivity|].
  intros ->. discriminate.
Qed.

Lemma truthy_Some f : f <> "" -> truthy (Some f) = Some f.
Proof.
  intros Hne. simpl. destruct (String.eqb_spec f ""); [contradiction|].
  reflexivity.
Qed.

(** Stopping a session of the synthesizer whose artifact is in place. *)
Lemma stopRecording_simulated a h f data :
  isRecording a = true ->
  recordingProcess a = None ->
  currentRecordingPath a = Some f -> f <> "" ->
  files h !! f = Some data ->
  stopRecording (mkSt a h) =
    (Ret (mkRecordingResult true None (Some f)),
     mkSt (reset_helper a)
          (with_trace
             (trace h ++ (if Z.of_nat (length data) <? 100
                          then [small_file_warning] else []))
             h)).
Proof.
  intros Hrec Hproc Hpath Hne Hfile.
  pose proof (existsSync_file _ _ _ Hfile) as He.
  assert (Hf : truthy (currentRecordingPath a) = Some f).
  { rewrite Hpath. apply truthy_Some, Hne. }
  unfold stopRecording. run. rewrite Hrec. simpl. rewrite Hproc, Hf. run.
  rewrite He. simpl.
  rewrite (verify_artifact_found a h f Hf He). simpl.
  unfold stat_size. rewrite Hfile, Hpath. reflexivity.
Qed.

Section SessionProperties.
Context {node : NodeLib}.

(** X1. A session from start to stop. When [startRecording] succeeds with
    path [p] on a helper without a process handle, the status reports
    recording at [p]; [stopRecording] then returns [p], logs the
    small-file warning (the synthesized header is 44 bytes, under the
    100-byte threshold) and nothing else, leaves the artifact on disk and
    the status at not recording with no path; a further [stopRecording] is
    rejected. *)
Theorem session_start_to_stop (s s1 : St) (p : string) :
  recordingProcess (this s) = None ->
  startRecording s = (Ret (mkRecordingResult true None (Some p)), s1) ->
  p <> "" ->
  let s2 := snd (stopRecording s1) in
  fst (getRecordingStatus s1) = Ret (mkRecordingStatus true (Some p)) /\
  fst (stopRecording s1) = Ret (mkRecordingResult true None (Some p)) /\
  fst (getRecordingStatus s2) = Ret (mkRecordingStatus false None) /\
  trace (host s2) = (trace (host s1) ++ [small_file_warning])%list /\
  files (host s2) !! p = Some wavHeader /\
  stopRecording s2 =
    (Ret (mkRecordingResult false (Some "Not currently recording") None), s2).
Proof.
  intros Hproc Hstart Hne.
  assert (Hs1 : isRecording (this s1) = true /\
                currentRecordingPath (this s1) = Some p /\
                recordingProcess (this s1) = None /\
                files (host s1) !! p = Some wavHeader).
  { destruct (startRecording_cases s)
      as [[_ Hs]|[(_ & q & s' & Hs & Hr & Hp & Hk & Hf)|(_ & m & q & s' & Hs & _)]];
      rewrite Hs in Hstart; try discriminate.
    injection Hstart as <- <-. rewrite Hk. auto. }
  destruct Hs1 as (Hrec & Hpath & Hproc1 & Hfile).
  destruct s1 as [a1 h1]; simpl in *.
  rewrite (stopRecording_simulated a1 h1 p wavHeader Hrec Hproc1 Hpath Hne Hfile).
  simpl. unfold getRecordingStatus. run. rewrite Hrec, Hpath.
  repeat split; try reflexivity; try exact Hfile.
Qed.

(** X3. [startRecording] has three outcomes and its own catch block is
    not one of them: it succeeds, or it is rejected as already recording,
    or the synthesizer reports its own failure. After that failure the
    helper is not recording, yet the path of the failed attempt stays set
    and the status reports it. *)
Theorem startRecording_outcomes (s : St) :
  exists r s',
    startRecording s = (Ret r, s') /\
    ((success r = true /\ error r = None) \/
     (r = AlreadyRecording /\ s' = s) \/
     (exists msg p,
         r = mkRecordingResult false
               (Some ("Failed to simulate recording: " ++ msg)) None /\
         fst (getRecordingStatus s')
           = Ret (mkRecordingStatus false (Some p)))).
Proof.
  destruct (startRecording_cases s)
    as [[_ Hs]|[(_ & p & s' & Hs & _)|(_ & m & p & s' & Hs & Hr & Hp)]];
    do 2 eexists; (split; [exact Hs|]).
  - right. left. auto.
  - left. auto.
  - right. right. exists m, p. split; [reflexivity|].
    unfold getRecordingStatus. run. rewrite Hr, Hp. reflexivity.
Qed.

End SessionProperties.

(** X2. A session of the synthesizer whose artifact has disappeared:
    [stopRecording] fails with the file-not-found failure of its catch
    block and the helper is idle again, with one error line logged. *)
Theorem stopRecording_artifact_gone (s : St) (f : string) :
  isRecording (this s) = true ->
  recordingProcess (this s) = None ->
  truthy (currentRecordingPath (this s)) = Some f ->
  existsSync f (host s) = false ->
  stopRecording s =
    (Ret (mkRecordingResult false
            (Some "Failed to stop recording: Recording file not found") None),
     mkSt (reset_helper (this s))
          (with_trace
             (trace (host s) ++
                [Console LError
                   "Error stopping recording: Recording file not found"])
             (host s))).
Proof.
  intros Hrec Hproc Hf He. destruct s as [a h]; simpl in *.
  unfold stopRecording. run. rewrite Hrec. simpl. rewrite Hproc, Hf. run.
  rewrite He. reflexivity.
Qed.

(** X4. Off Windows [kill()] is not guarded: when it throws, the call
    fails with what it threw, the two recording fields are reset, and the
    process handle is kept. *)
Theorem stopRecording_kill_throws (s : St) (p : ChildProcess) (e : string) :
  isRecording (this s) = true ->
  recordingProcess (this s) = Some p ->
  is_win32 (platform (host s)) = false ->
  kill_error p = Some e ->
  stopRecording s =
    (Ret (mkRecordingResult false
            (Some ("Failed to stop recording: " ++ e)) None),
     mkSt (reset_helper (this s))
          (with_trace
             (trace (host s) ++
                [Kill (pid p);
                 Console LError ("Error stopping recording: " ++ e)])
             (host s))) /\
  recordingProcess (this (snd (stopRecording s))) = Some p.
Proof.
  intros Hrec Hproc Hwin Hkill. destruct s as [a h]; simpl in *.
  assert (Hrun : stopRecording (mkSt a h) =
    (Ret (mkRecordingResult false
            (Some ("Failed to stop recording: " ++ e)) None),
     mkSt (reset_helper a)
          (with_trace
             (trace h ++
                [Kill (pid p);
                 Console LError ("Error stopping recording: " ++ e)]) h))).
  { unfold stopRecording. run. rewrite Hrec. simpl. rewrite Hproc.
    destruct (terminate_cases p a h) as [Ht|(e' & _ & Hk & Ht)].
    - exfalso. revert Ht. unfold terminate, kill. run.
      rewrite Hwin. run. rewrite Hkill. run. discriminate.
    - rewrite Ht. run. rewrite Hkill in Hk. injection Hk as <-.
      unfold with_trace; simpl. rewrite <- app_assoc. reflexivity. }
  split; [exact Hrun|]. rewrite Hrun. simpl. exact Hproc.
Qed.

(** X5. A real-capture session whose artifact is in place stops
    successfully whenever the termination does not throw: on Windows
    always, whatever [kill()] and [taskkill] do (their failures are logged
    and swallowed, and [taskkill] runs exactly when [kill()] returned and
    the process has a pid), elsewhere when [kill()] returns. The handle is
    dropped and the helper reset. The size tested against the 100-byte
    threshold is the one [statSync] gives: the length of a file, and for a
    directory standing at the path what the system reports for it. *)
Theorem stopRecording_capture_completes
    (s : St) (p : ChildProcess) (f : string) :
  isRecording (this s) = true ->
  recordingProcess (this s) = Some p ->
  is_win32 (platform (host s)) = true \/ kill_error p = None ->
  truthy (currentRecordingPath (this s)) = Some f ->
  existsSync f (host s) = true ->
  stopRecording s =
    (Ret (mkRecordingResult true None (Some f)),
     mkSt (reset_helper (set_recordingProcess None (this s)))
          (with_trace
             (trace (host s)
                ++ terminate_events (platform (host s)) p
                     (taskkill_error (host s))
                ++ (if stat_size f (host s) <? 100
                    then [small_file_warning] else []))
             (host s))).
Proof.
  intros Hrec Hproc Hterm Hf He. destruct s as [a h]; simpl in *.
  destruct (truthy_Some_inv _ _ Hf) as [Hpath _].
  unfold stopRecording. run. rewrite Hrec. simpl. rewrite Hproc.
  destruct (terminate_cases p a h) as [Ht|(e & Hw & Hk & _)];
    [|destruct Hterm; congruence].
  rewrite Ht.
  erewrite verify_artifact_found; [|exact Hf|exact He].
  simpl. rewrite Hpath. unfold reset_helper, with_trace; simpl.
  rewrite <- app_assoc. reflexivity.
Qed.

Lemma session_start_to_stop_witness :
  fst (stopRecording (snd (startRecording (node := posix) idle)))
    = Ret (mkRecordingResult true None (Some "/data/audio/recording-a.wav")).
Proof.
  apply (session_start_to_stop (node := posix) idle
           (snd (startRecording (node := posix) idle))
           "/data/audio/recording-a.wav");
    [reflexivity | vm_compute; reflexivity | discriminate].
Defined.

Lemma stopRecording_artifact_gone_witness :
  fst (stopRecording orphaned)
    = Ret (mkRecordingResult false
             (Some "Failed to stop recording: Recording file not found") None).
Proof.
  rewrite (stopRecording_artifact_gone orphaned "/data/audio/recording-a.wav");
    reflexivity.
Defined.

Lemma stopRecording_kill_throws_witness :
  recordingProcess (this (snd (stopRecording unkillable)))
    = Some (mkChildProcess (Some 4242) (Some "kill EPERM")).
Proof.
  apply (stopRecording_kill_throws unkillable
           (mkChildProcess (Some 4242) (Some "kill EPERM")) "kill EPERM");
    reflexivity.
Defined.

(** A directory at the recording path is large enough: the session stops
    successfully and no small-file warning is logged. *)
Lemma stopRecording_directory_artifact :
  stat_size "C:\audio\recording-a.wav" (host capture_on_directory) = 4096 /\
  fst (stopRecording capture_on_directory)
    = Ret (mkRecordingResult true None (Some "C:\audio\recording-a.wav")) /\
  List.filter (fun e => match e with Console _ _ => true | _ => false end)
              (trace (host (snd (stopRecording capture_on_directory)))) = [].
Proof. vm_compute. repeat split; reflexivity. Qed.

Lemma stopRecording_capture_completes_witness :
  fst (stopRecording windows_capture)
    = Ret (mkRecordingResult true None (Some "C:\audio\recording-a.wav")).
Proof.
  rewrite (stopRecording_capture_completes windows_capture
             (mkChildProcess (Some 4242) (Some "kill EPERM"))
             "C:\audio\recording-a.wav");
    try reflexivity.
  left; reflexivity.
Defined.

(** ** Transcription client: the request *)

Lemma timer_released (id : nat) (T : gset nat) : ({[id]} ∪ T) ∖ {[id]} ⊆ T.
Proof.
  intros x Hx. apply elem_of_difference in Hx as [Hx Hn].
  apply elem_of_union in Hx as [Hx|Hx]; [contradiction|exact Hx].
Qed.

Lemma timer_released_fired (id : nat) (T : gset nat) :
  (({[id]} ∪ T) ∖ {[id]}) ∖ {[id]} ⊆ T.
Proof.
  intros x Hx. apply elem_of_difference in Hx as [Hx _].
  exact (timer_released id T x Hx).
Qed.

Section RequestProperties.
Context {node : NodeLib}.

(** X6. The successful request. With the file readable, a key configured,
    and a success response whose body parses, [transcribeAudio] returns
    the [text] of the body as it is, after exactly one request carrying
    the key as bearer token, the base name of the file and its bytes; the
    timer it armed is cleared and not pending. *)
Theorem transcribeAudio_success
    (audioPath : string) (s : St) (key : string) (data : list byte)
    (response : Response) (body : JsonBody) :
  files (host s) !! resolve (audioDir (this s)) audioPath = Some data ->
  truthy (cfg_apiKey (host s)) = Some key ->
  fetch_result (host s) = Settled response ->
  resp_ok response = true ->
  json response = Settled body ->
  let id := timer_next (host s) in
  let s' := snd (transcribeAudio audioPath s) in
  fst (transcribeAudio audioPath s)
    = Ret (mkTranscriptionResult true None (body_text body)) /\
  trace (host s') =
    (trace (host s) ++
      [ TimerSet id 30000;
        Fetch WHISPER_URL ("Bearer " ++ key)%string
              (path_basename (resolve (audioDir (this s)) audioPath)) data;
        TimerCleared id ])%list /\
  (id ∉ timers (host s')).
Proof.
  intros Hfile Hkey Hfetch Hok Hjson. destruct s as [a h]; simpl in *.
  pose proof (existsSync_file _ _ _ Hfile) as Hex.
  unfold transcribeAudio, readFileSync, setTimeout, fetch, clearTimeout,
    await_abortable.
  run. rewrite Hex. simpl. rewrite Hkey. simpl. rewrite Hfile. simpl.
  rewrite Hfetch. simpl. rewrite Hok. simpl. rewrite Hjson. simpl.
  split; [reflexivity|].
  split; [rewrite <- !app_assoc; reflexivity|].
  apply not_elem_of_difference; right; apply elem_of_singleton; reflexivity.
Qed.

(** X7. The failure response. When the response is not a success,
    [transcribeAudio] fails with the message of the error body, or with
    the status text when the body has no (or an empty) message; when the
    body does not parse, the parser's error is reported instead of the
    status. No second request is made and the timer is not pending. *)
Theorem transcribeAudio_remote_failure
    (audioPath : string) (s : St) (key : string) (data : list byte)
    (response : Response) :
  files (host s) !! resolve (audioDir (this s)) audioPath = Some data ->
  truthy (cfg_apiKey (host s)) = Some key ->
  fetch_result (host s) = Settled response ->
  resp_ok response = false ->
  let s' := snd (transcribeAudio audioPath s) in
  fst (transcribeAudio audioPath s)
    = Ret (mkTranscriptionResult false
             (Some ("Failed to transcribe audio: "
                      ++ remote_failure (host s) response)) None) /\
  length (requests (trace (host s')))
    = S (length (requests (trace (host s)))) /\
  (timer_next (host s) ∉ timers (host s')).
Proof.
  intros Hfile Hkey Hfetch Hok. destruct s as [a h]; simpl in *.
  pose proof (existsSync_file _ _ _ Hfile) as Hex.
  unfold transcribeAudio, readFileSync, setTimeout, fetch, clearTimeout,
    await_abortable, remote_failure, requests.
  run. rewrite Hex. simpl. rewrite Hkey. simpl. rewrite Hfile. simpl.
  rewrite Hfetch. simpl. rewrite Hok. simpl.
  destruct (json response) as [body|msg|]; simpl;
    (split; [reflexivity|]);
    (split;
     [rewrite !List.filter_app, !length_app; simpl; lia
     |apply not_elem_of_difference; right; apply elem_of_singleton;
      reflexivity]).
Qed.

(** Every run of [transcribeAudio], by its effects. *)
Lemma transcribeAudio_effects (audioPath : string) (s : St) :
  exists r s',
    transcribeAudio audioPath s = (Ret r, s') /\
    (exists added, trace (host s') = (trace (host s) ++ added)%list /\
                   (length (requests added) <= 1)%nat /\
                   List.filter is_ipc added = []) /\
    timers (host s') ⊆ timers (host s) /\
    this s' = this s /\
    files (host s') = files (host s).
Proof.
  destruct s as [a h].
  unfold transcribeAudio, readFileSync, setTimeout, fetch, clearTimeout,
    await_abortable.
  run.
  assert (Hnil : exists added : list Event,
             trace h = (trace h ++ added)%list /\
             (length (requests added) <= 1)%nat /\
             List.filter is_ipc added = []).
  { exists []. rewrite app_nil_r. simpl. auto. }
  destruct (existsSync _ h); simpl.
  2:{ do 2 eexists. split; [reflexivity|]. simpl.
      split; [eexists; split; [reflexivity|split; [simpl; lia|reflexivity]]|].
      auto. }
  destruct (truthy (cfg_apiKey h)); simpl.
  2:{ do 2 eexists. split; [reflexivity|]. simpl. auto. }
  clear Hnil.
  destruct (files h !! _); simpl.
  2:{ destruct (bool_decide _); simpl; do 2 eexists;
        (split; [reflexivity|]); simpl;
        (split; [eexists; split;
                 [reflexivity|split; [simpl; lia|reflexivity]]|]); auto. }
  destruct (fetch_result h) as [response| |]; simpl.
  - destruct (resp_ok response); simpl;
      destruct (json response); simpl;
      do 2 eexists; (split; [reflexivity|]); simpl;
      (split; [eexists; split; [rewrite <- !app_assoc; reflexivity
                               |split; [simpl; lia|reflexivity]]|]);
      (split; [first [apply timer_released|apply timer_released_fired]
              |auto]).
  - do 2 eexists. split; [reflexivity|]. simpl.
    split; [eexists; split; [rewrite <- !app_assoc; reflexivity
                            |split; [simpl; lia|reflexivity]]|].
    split; [apply timer_released|auto].
  - do 2 eexists. split; [reflexivity|]. simpl.
    split; [eexists; split; [rewrite <- !app_assoc; reflexivity
                            |split; [simpl; lia|reflexivity]]|].
    split; [apply timer_released_fired|auto].
Qed.

(** X8. Whatever happens, [transcribeAudio] returns a result, only adds to
    the trace, makes at most one request, leaves no timer pending that
    was not pending before, and changes neither the helper nor any
    file. *)
Theorem transcribeAudio_hygiene (audioPath : string) (s : St) :
  exists r s',
    transcribeAudio audioPath s = (Ret r, s') /\
    (exists added, trace (host s') = (trace (host s) ++ added)%list /\
                   (length (requests added) <= 1)%nat) /\
    timers (host s') ⊆ timers (host s) /\
    this s' = this s /\
    files (host s') = files (host s).
Proof.
  destruct (transcribeAudio_effects audioPath s)
    as (r & s' & Hrun & (added & Htrace & Hreq & _) & Htimers & Hthis & Hfiles).
  exists r, s'. split; [exact Hrun|].
  split; [exists added; auto|]. auto.
Qed.

End RequestProperties.

Lemma transcribeAudio_success_witness :
  fst (transcribeAudio (node := posix) "recording-a.wav" answering)
    = Ret (mkTranscriptionResult true None (Some "hello world")).
Proof.
  apply (transcribeAudio_success (node := posix) "recording-a.wav" answering
           "sk-test" wavHeader
           (mkResponse true "OK"
              (Settled (mkJsonBody None (Some "hello world"))))
           (mkJsonBody None (Some "hello world")));
    reflexivity.
Defined.

Lemma transcribeAudio_remote_failure_witness :
  fst (transcribeAudio (node := posix) "recording-a.wav" unauthorized)
    = Ret (mkTranscriptionResult false
             (Some "Failed to transcribe audio: OpenAI API error: Incorrect API key provided")
             None).
Proof.
  apply (transcribeAudio_remote_failure (node := posix) "recording-a.wav"
           unauthorized "sk-test" wavHeader
           (mkResponse false "Unauthorized"
              (Settled (mkJsonBody (Some "Incorrect API key provided") None))));
    reflexivity.
Defined.

(** ** Command gateway: the transcription commands *)

Section TranscriptionCommands.
Context {node : NodeLib}.

(** X9. Without a key reported by the configuration, both transcription
    commands fail with the key-required error before anything else: the
    helper is not called, nothing is written, no request is made, and the
    only effect is the key-invalid event when there is a window. *)
Theorem transcription_commands_need_key (input : string) (g : Main) :
  cfg_hasApiKey (main_host g) = false ->
  let g' :=
    if mainWindow g then
      mkMain (audioHelper g) true (API_KEY_INVALID g)
             (with_trace
                (trace (main_host g) ++ [IpcSend (API_KEY_INVALID g) None])
                (main_host g))
    else g in
  transcribe_audio input g =
    (Ret (mkTranscriptionResult false (Some "API key required") None), g') /\
  transcribe_web_audio input g =
    (Ret (mkTranscriptionResult false (Some "API key required") None), g').
Proof.
  intros Hkey. destruct g as [oa w ch h]; simpl in *.
  unfold transcribe_audio, transcribe_web_audio, send. run.
  rewrite Hkey. simpl. destruct w; split; reflexivity.
Qed.

(** X10. With a key reported, the helper available and a window, the
    [transcribe-audio] command sends the started event, runs the
    transcription, and then sends exactly one closing event that matches
    the result it returns: completed with the text, or error with the
    message. The helper is left as it was. *)
Theorem transcribe_audio_announces
    (audioPath : string) (g : Main) (a : AudioHelper) :
  cfg_hasApiKey (main_host g) = true ->
  audioHelper g = Some a ->
  mainWindow g = true ->
  exists r added,
    fst (transcribe_audio audioPath g) = Ret r /\
    trace (main_host (snd (transcribe_audio audioPath g))) =
      (trace (main_host g) ++ [IpcSend "transcription-started" None]
         ++ added ++ [announcement r])%list /\
    List.filter is_ipc added = [] /\
    audioHelper (snd (transcribe_audio audioPath g)) = Some a.
Proof.
  intros Hkey Hhelper Hwin. destruct g as [oa w ch h]; simpl in *.
  subst oa w.
  unfold transcribe_audio, notify_result, send, call. run.
  rewrite Hkey. simpl.
  match goal with
  | |- context [transcribeAudio audioPath ?s0] =>
      destruct (transcribeAudio_effects audioPath s0)
        as (r & s1 & Hrun & (added & Htrace & _ & Hipc) & _ & Hthis & _);
      rewrite Hrun
  end; simpl in *.
  exists r, added. unfold announcement.
  destruct (if t_success r then truthy (text r) else None);
    unfold modify; simpl; rewrite Htrace, Hthis, <- !app_assoc; auto.
Qed.

(** X11. A success whose transcript is empty. When the remote endpoint
    answers with a success response whose [text] is absent or empty, the
    [transcribe-audio] command returns the success result, and the closing
    event it sends is the error event with the message Unknown error. *)
Theorem transcribe_audio_empty_transcript
    (audioPath : string) (g : Main) (a : AudioHelper) (key : string)
    (data : list byte) (response : Response) (body : JsonBody) :
  cfg_hasApiKey (main_host g) = true ->
  audioHelper g = Some a ->
  mainWindow g = true ->
  files (main_host g) !! resolve (audioDir a) audioPath = Some data ->
  truthy (cfg_apiKey (main_host g)) = Some key ->
  fetch_result (main_host g) = Settled response ->
  resp_ok response = true ->
  json response = Settled body ->
  truthy (body_text body) = None ->
  fst (transcribe_audio audioPath g)
    = Ret (mkTranscriptionResult true None (body_text body)) /\
  last (trace (main_host (snd (transcribe_audio audioPath g))))
    = Some (IpcSend "transcription-error" (Some "Unknown error")).
Proof.
  intros Hhas Hhelper Hwin Hfile Hkey Hfetch Hok Hjson Hblank.
  destruct g as [oa w ch h]; simpl in *. subst oa w.
  pose proof (existsSync_file _ _ _ Hfile) as Hex.
  unfold transcribe_audio, notify_result, send, call, transcribeAudio,
    readFileSync, setTimeout, fetch, clearTimeout, await_abortable.
  run. rewrite Hhas. simpl. rewrite existsSync_with_trace, Hex. simpl.
  rewrite Hkey. simpl.
  rewrite Hfile. simpl. rewrite Hfetch. simpl. rewrite Hok. simpl.
  rewrite Hjson. simpl. rewrite Hblank. simpl.
  split; [reflexivity|]. apply last_snoc.
Qed.


End TranscriptionCommands.

(** ** Command gateway: payloads, sessions and the missing helper *)

Lemma prefix_char c a s :
  String.prefix (String c "") (String a s) = Ascii.eqb a c.
Proof.
  simpl. destruct (ascii_dec c a) as [->|Hne].
  - rewrite Ascii.eqb_refl. destruct s; reflexivity.
  - symmetry. apply Ascii.eqb_neq. congruence.
Qed.

Lemma includes_char_cons c a s :
  includes (String c "") (String a s)
    = Ascii.eqb a c || includes (String c "") s.
Proof.
  cbn [includes]. rewrite prefix_char.
  destruct (Ascii.eqb a c); reflexivity.
Qed.

(** A string without the separator is its own single field. *)
Lemma split_on_absent c s :
  includes (String c "") s = false -> split_on c s = [s].
Proof.
  induction s as [|a s IH]; intros Hno; [reflexivity|].
  rewrite includes_char_cons in Hno.
  apply orb_false_iff in Hno as [Ha Hs].
  cbn [split_on]. rewrite Ha, (IH Hs). reflexivity.
Qed.

(** Splitting after a separator-free prefix. *)
Lemma split_on_prefix c pre rest :
  includes (String c "") pre = false ->
  split_on c (pre ++ String c rest) = pre :: split_on c rest.
Proof.
  induction pre as [|a pre IH]; intros Hno.
  - change ("" ++ ?x) with x. cbn [split_on].
    rewrite Ascii.eqb_refl. reflexivity.
  - rewrite includes_char_cons in Hno.
    apply orb_false_iff in Hno as [Ha Hs].
    rewrite append_cons. cbn [split_on]. rewrite Ha, (IH Hs). reflexivity.
Qed.

Lemma split_on_nonempty c s : exists x xs, split_on c s = x :: xs.
Proof.
  destruct s as [|a s]; [simpl; eauto|].
  cbn [split_on]. destruct (Ascii.eqb a c); [eauto|].
  destruct (split_on c s); eauto.
Qed.

Section GatewaySessions.
Context {node : NodeLib}.

(** X13. What the web-audio command decodes is the text between the first
    and the second comma of the payload. For a data URL, a comma-free
    header followed by a comma and a comma-free base64 text, that is the
    base64 text whole; a payload without a comma has no such text. *)
Theorem after_comma_field (header rest : string) :
  includes "," header = false ->
  after_comma (header ++ String "," rest)
    = Some (hd "" (split_on "," rest)) /\
  (includes "," rest = false ->
   after_comma (header ++ String "," rest) = Some rest) /\
  after_comma header = None.
Proof.
  intros Hno. unfold after_comma.
  rewrite (split_on_prefix "," header rest Hno).
  rewrite (split_on_absent "," header Hno). simpl.
  split; [|split; [|reflexivity]].
  - destruct (split_on_nonempty "," rest) as (x & xs & Hx). rewrite Hx.
    reflexivity.
  - intros Hrest. rewrite (split_on_absent "," rest Hrest). reflexivity.
Qed.

(** X14. A payload without a comma. With a key reported and the helper
    available, the web-audio command fails with the type error that
    [Buffer.from] raises for an undefined first argument, after the
    started event and before anything is created: the files and
    directories are untouched, no name is drawn, and the trace gains the
    started event, the error line and the error event only. *)
Theorem transcribe_web_audio_without_comma
    (base64Audio : string) (g : Main) (a : AudioHelper) :
  cfg_hasApiKey (main_host g) = true ->
  audioHelper g = Some a ->
  includes "," base64Audio = false ->
  let g' := snd (transcribe_web_audio base64Audio g) in
  fst (transcribe_web_audio base64Audio g)
    = Ret (mkTranscriptionResult false
             (Some ERR_FIRST_ARGUMENT_UNDEFINED) None) /\
  files (main_host g') = files (main_host g) /\
  dirs (main_host g') = dirs (main_host g) /\
  uuid_used (main_host g') = uuid_used (main_host g) /\
  trace (main_host g') =
    (trace (main_host g)
       ++ (if mainWindow g then [IpcSend "transcription-started" None]
           else [])
       ++ [Console LError
             ("Error transcribing web audio: "
                ++ ERR_FIRST_ARGUMENT_UNDEFINED)%string]
       ++ (if mainWindow g
           then [IpcSend "transcription-error"
                   (Some ERR_FIRST_ARGUMENT_UNDEFINED)]
           else []))%list.
Proof.
  intros Hkey Hhelper Hno. destruct g as [oa w ch h]; simpl in *. subst oa.
  assert (Hd : after_comma base64Audio = None).
  { unfold after_comma. rewrite (split_on_absent "," _ Hno). reflexivity. }
  unfold transcribe_web_audio, buffer_from_base64, send. run.
  rewrite Hkey, Hd. simpl.
  destruct w; simpl; repeat split; rewrite <- ?app_assoc; reflexivity.
Qed.

(** X15. A session through the gateway. When the start command succeeds
    with path [p] on a helper without a process handle, the status command
    reports recording at [p]; the stop command then returns [p], announces
    it to the window with the stopped event (after the small-file warning
    of the helper), and the status command reports not recording with no
    path. *)
Theorem gateway_session (g g1 : Main) (a : AudioHelper) (p : string) :
  audioHelper g = Some a ->
  recordingProcess a = None ->
  start_audio_recording g = (Ret (mkRecordingResult true None (Some p)), g1) ->
  p <> "" ->
  let g2 := snd (stop_audio_recording g1) in
  fst (get_recording_status g1) = Ret (mkRecordingStatus true (Some p)) /\
  fst (stop_audio_recording g1) = Ret (mkRecordingResult true None (Some p)) /\
  trace (main_host g2) =
    (trace (main_host g1) ++ [small_file_warning]
       ++ (if mainWindow g
           then [IpcSend "audio-recording-stopped" (Some p)] else []))%list /\
  fst (get_recording_status g2) = Ret (mkRecordingStatus false None).
Proof.
  intros Hhelper Hproc Hstart Hne.
  destruct g as [oa w ch h]; simpl in *. subst oa.
  unfold start_audio_recording, call in Hstart.
  unfold try_catch, bind, gets in Hstart. simpl in Hstart.
  destruct (startRecording_cases (mkSt a h))
    as [[_ Hs]|[(_ & q & s' & Hs & Hr & Hp & Hk & Hf)|(_ & m & q & s' & Hs & _)]];
    rewrite Hs in Hstart; simpl in Hstart; try discriminate.
  injection Hstart as <- <-. destruct s' as [a1 h1]; simpl in *.
  rewrite Hproc in Hk.
  unfold get_recording_status, stop_audio_recording, getRecordingStatus,
    send, call.
  run. rewrite Hr, Hp.
  rewrite (stopRecording_simulated a1 h1 q wavHeader Hr Hk Hp Hne Hf).
  pose proof (truthy_Some q Hne) as Ht. simpl in Ht. simpl. rewrite Ht.
  destruct w; simpl; repeat split; rewrite <- ?app_assoc; reflexivity.
Qed.

(** X16. Without a helper every audio command answers and nothing
    happens: start and stop report the helper as unavailable, the status
    is not recording, and the two transcription commands (a key being
    reported) report the helper as unavailable before sending any
    event. *)
Theorem audio_commands_without_helper (input : string) (g : Main) :
  audioHelper g = None ->
  start_audio_recording g = (Ret unavailable, g) /\
  stop_audio_recording g = (Ret unavailable, g) /\
  get_recording_status g = (Ret (mkRecordingStatus false None), g) /\
  (cfg_hasApiKey (main_host g) = true ->
   transcribe_audio input g =
     (Ret (mkTranscriptionResult false
             (Some "Audio helper not available") None), g) /\
   transcribe_web_audio input g =
     (Ret (mkTranscriptionResult false
             (Some "Audio helper not available") None), g)).
Proof.
  intros Hnone. destruct g as [oa w ch h]; simpl in *. subst oa.
  repeat split; try reflexivity;
    unfold transcribe_audio, transcribe_web_audio; run; rewrite H;
    reflexivity.
Qed.

End GatewaySessions.

Lemma transcription_commands_need_key_witness :
  fst (transcribe_web_audio (node := posix) "data:audio/webm;base64,aGk="
         keyless_gateway)
    = Ret (mkTranscriptionResult false (Some "API key required") None).
Proof.
  destruct (transcription_commands_need_key (node := posix)
              "data:audio/webm;base64,aGk=" keyless_gateway) as [_ Hweb];
    [reflexivity|].
  rewrite Hweb. reflexivity.
Defined.

Lemma transcribe_audio_announces_witness :
  exists r added,
    fst (transcribe_audio (node := posix) "recording-a.wav" gateway) = Ret r /\
    trace (main_host (snd (transcribe_audio (node := posix)
                             "recording-a.wav" gateway))) =
      (trace (main_host gateway) ++ [IpcSend "transcription-started" None]
         ++ added ++ [announcement r])%list /\
    List.filter is_ipc added = [] /\
    audioHelper (snd (transcribe_audio (node := posix)
                        "recording-a.wav" gateway)) = Some idle_helper.
Proof.
  apply (transcribe_audio_announces (node := posix) "recording-a.wav"
           gateway idle_helper); reflexivity.
Defined.

Lemma transcribe_audio_empty_transcript_witness :
  fst (transcribe_audio (node := posix) "recording-a.wav" silent_gateway)
    = Ret (mkTranscriptionResult true None (Some "")) /\
  last (trace (main_host (snd (transcribe_audio (node := posix)
                                 "recording-a.wav" silent_gateway))))
    = Some (IpcSend "transcription-error" (Some "Unknown error")).
Proof.
  apply (transcribe_audio_empty_transcript (node := posix) "recording-a.wav"
           silent_gateway idle_helper "sk-test" wavHeader
           (mkResponse true "OK" (Settled (mkJsonBody None (Some ""))))
           (mkJsonBody None (Some "")));
    reflexivity.
Defined.


Lemma after_comma_field_witness :
  after_comma ("data:audio/webm;base64" ++ String "," "aGk=") = Some "aGk=".
Proof.
  destruct (after_comma_field "data:audio/webm;base64" "aGk=")
    as (_ & Hwhole & _); [reflexivity|].
  apply Hwhole. reflexivity.
Defined.

Lemma transcribe_web_audio_without_comma_witness :
  fst (transcribe_web_audio (node := posix) "aGk=" gateway)
    = Ret (mkTranscriptionResult false
             (Some ("The first argument must be of type string or an "
                      ++ "instance of Buffer, ArrayBuffer, or Array or an "
                      ++ "Array-like Object. Received undefined"))
             None).
Proof.
  apply (transcribe_web_audio_without_comma (node := posix) "aGk=" gateway
           idle_helper); reflexivity.
Defined.

Lemma gateway_session_witness :
  fst (stop_audio_recording
         (snd (start_audio_recording (node := posix) gateway)))
    = Ret (mkRecordingResult true None (Some "/data/audio/recording-c.wav")).
Proof.
  apply (gateway_session (node := posix) gateway
           (snd (start_audio_recording (node := posix) gateway))
           idle_helper "/data/audio/recording-c.wav");
    [reflexivity | reflexivity | vm_compute; reflexivity | discriminate].
Defined.

Lemma audio_commands_without_helper_witness :
  get_recording_status early_gateway
    = (Ret (mkRecordingStatus false None), early_gateway).
Proof.
  apply (audio_commands_without_helper (node := posix) "recording-a.wav"
           early_gateway).
  reflexivity.
Defined.

(** ** Device discovery: names, detection, construction *)

Lemma includes_char_app c (a b : string) :
  includes (String c "") (a ++ b)
    = includes (String c "") a || includes (String c "") b.
Proof.
  induction a as [|x a IH].
  - change ("" ++ b) with b. destruct b; reflexivity.
  - rewrite append_cons, !includes_char_cons, IH. apply orb_assoc.
Qed.

(** No field of a split holds the separator. *)
Lemma split_on_fields c s :
  Forall (fun x => includes (String c "") x = false) (split_on c s).
Proof.
  induction s as [|a s IH]; [repeat constructor|].
  cbn [split_on]. destruct (Ascii.eqb a c) eqn:Ha.
  - constructor; [reflexivity|exact IH].
  - destruct (split_on c s) as [|x xs]; [repeat constructor|].
    + rewrite includes_char_cons, Ha. reflexivity.
    + inversion IH as [|? ? Hx Hxs]; subst. constructor; [|exact Hxs].
      rewrite includes_char_cons, Ha, Hx. reflexivity.
Qed.

(** X17. Every name that device discovery returns is non-empty and holds
    neither a double quote nor a line feed. *)
Theorem device_names_well_formed (s : St) (devices : list string) :
  fst (listAudioDevices s) = Ret devices ->
  Forall (fun name =>
            name <> "" /\ quote_free name = true /\
            includes (String newline "") name = false) devices.
Proof.
  intros Hrun.
  assert (Hmarked : forall lines,
    Forall (fun x => includes (String newline "") x = false) lines ->
    Forall (fun name =>
              name <> "" /\ quote_free name = true /\
              includes (String newline "") name = false)
           (marked_names lines)).
  { intros lines Hlines. apply List.Forall_forall. intros name Hin.
    destruct (In_marked_names _ _ Hin) as (line & Hline & _ & Hm).
    destruct (match_quoted_Some _ _ Hm) as (pre & post & (Hl & Hn & Hq) & _).
    split; [exact Hn|]. split; [exact Hq|].
    rewrite List.Forall_forall in Hlines. specialize (Hlines line Hline).
    rewrite Hl, includes_char_app, includes_char_cons, includes_char_app in Hlines.
    apply orb_false_iff in Hlines as [_ Hlines].
    apply orb_false_iff in Hlines as [_ Hlines].
    apply orb_false_iff in Hlines as [Hname _]. exact Hname. }
  destruct (truthy (ffmpegPath (this s))) as [ffmpeg|] eqn:Hff.
  - destruct (is_win32 (platform (host s))) eqn:Hwin.
    + pose proof (listAudioDevices_win32 s ffmpeg Hff Hwin) as Hw.
      simpl in Hw. rewrite Hw in Hrun. injection Hrun as <-.
      apply Hmarked, split_on_fields.
    + rewrite (listAudioDevices_elsewhere s ffmpeg Hff Hwin) in Hrun.
      injection Hrun as <-. constructor.
  - rewrite (listAudioDevices_unavailable s Hff) in Hrun.
    injection Hrun as <-. constructor.
Qed.

Lemma trimEnd_keeps_head c s :
  is_space c = false -> exists t, trimEnd (String c s) = String c t.
Proof.
  intros Hc. cbn [trimEnd]. destruct (trimEnd s); [rewrite Hc|]; eauto.
Qed.

Lemma trimStart_head s : starts_with_space (trimStart s) = false.
Proof.
  induction s as [|c s IH]; [reflexivity|].
  cbn [trimStart]. destruct (is_space c) eqn:Hc; [exact IH|].
  simpl. exact Hc.
Qed.

Lemma trimEnd_tail s : ends_with_space (trimEnd s) = false.
Proof.
  induction s as [|c s IH]; [reflexivity|].
  cbn [trimEnd]. destruct (trimEnd s) as [|d t] eqn:Ht.
  - destruct (is_space c) eqn:Hc; [reflexivity|]. simpl. exact Hc.
  - exact IH.
Qed.

Lemma trim_ends s :
  starts_with_space (trim s) = false /\ ends_with_space (trim s) = false.
Proof.
  unfold trim. split; [|apply trimEnd_tail].
  pose proof (trimStart_head s) as Hhead.
  destruct (trimStart s) as [|c t]; [reflexivity|].
  simpl in Hhead. destruct (trimEnd_keeps_head c t Hhead) as (t' & Ht').
  rewrite Ht'. exact Hhead.
Qed.

(** X18. What detection leaves in [ffmpegPath]. It launches the locating
    command once ([where] on Windows, [which] elsewhere). When the command
    fails the path is reset to null; when it prints only white space the
    path is left as it was; otherwise the path is the output trimmed,
    which is non-empty and has white space at neither end. *)
Theorem detectFFmpeg_path (s : St) :
  let s' := snd (detectFFmpeg s) in
  fst (detectFFmpeg s) = Ret tt /\
  trace (host s') =
    (trace (host s)
       ++ [Exec (if is_win32 (platform (host s)) then "where" else "which")
                ["ffmpeg"]])%list /\
  match exec_result (host s) with
  | ExecRejected _ => ffmpegPath (this s') = None
  | ExecResolved stdout _ =>
      if String.eqb (trim stdout) "" then
        ffmpegPath (this s') = ffmpegPath (this s)
      else
        ffmpegPath (this s') = Some (trim stdout) /\
        starts_with_space (trim stdout) = false /\
        ends_with_space (trim stdout) = false
  end.
Proof.
  destruct s as [a h].
  unfold detectFFmpeg, detectFFmpeg_call, detectFFmpeg_resume, locate_command.
  run. destruct (exec_result h) as [stdout err|err]; simpl.
  - destruct (String.eqb (trim stdout) "") eqn:Hblank; simpl;
      (split; [reflexivity|]); (split; [reflexivity|]); [reflexivity|].
    split; [reflexivity|]. apply trim_ends.
  - auto.
Qed.

(** X19. No capture toolchain. When the locating command fails, discovery
    after detection returns no device and launches nothing: the trace
    gains the one launch of detection and the line saying that FFmpeg was
    not found. *)
Theorem discovery_without_ffmpeg (s : St) (err : option string) :
  exec_result (host s) = ExecRejected err ->
  let s' := snd ((detectFFmpeg ;;; listAudioDevices) s) in
  fst ((detectFFmpeg ;;; listAudioDevices) s) = Ret [] /\
  List.filter is_exec (trace (host s')) =
    (List.filter is_exec (trace (host s))
       ++ [Exec (locate_command (platform (host s))) ["ffmpeg"]])%list /\
  ffmpegPath (this s') = None.
Proof.
  intros Hexec. destruct s as [a h]; simpl in *.
  assert (Hdetect : detectFFmpeg (mkSt a h) =
    (Ret tt,
     mkSt (set_ffmpegPath None a)
          (with_trace
             (trace h ++ [Exec (locate_command (platform h)) ["ffmpeg"]]) h))).
  { unfold detectFFmpeg, detectFFmpeg_call, detectFFmpeg_resume. run.
    rewrite Hexec. reflexivity. }
  unfold bind. rewrite Hdetect.
  rewrite listAudioDevices_unavailable by reflexivity.
  simpl. rewrite !List.filter_app. simpl. rewrite app_nil_r. auto.
Qed.

Section ConstructionProperties.
Context {node : NodeLib}.

(** X20. Construction. The constructor either throws what creating the
    audio directory threw, having done nothing else, or returns an idle
    helper whose audio directory exists. It never lists the audio devices:
    [ffmpegPath] is still null when the constructor tests it, so even on a
    host with FFmpeg installed the only process launched, up to and
    including the resumption of detection, is the locating command. *)
Theorem construction_launches_detection_only (userData : string) (h : Host) :
  let dir := path_join userData "audio" in
  (forall e s,
      new_AudioHelper userData h = (Throw e, s) ->
      mkdir_error h = Some e /\ existsSync dir h = false /\
      s = mkSt (fresh_helper userData) h) /\
  (forall s,
      new_AudioHelper userData h = (Ret tt, s) ->
      this s = fresh_helper userData /\
      existsSync dir (host s) = true /\
      files (host s) = files h /\
      trace (host s) =
        (trace h ++ [Exec (locate_command (platform h)) ["ffmpeg"]])%list) /\
  (forall s,
      settled_AudioHelper userData h = (Ret tt, s) ->
      isRecording (this s) = false /\
      currentRecordingPath (this s) = None /\
      recordingProcess (this s) = None /\
      trace (host s) =
        (trace h ++ [Exec (locate_command (platform h)) ["ffmpeg"]])%list).
Proof.
  intros dir.
  unfold settled_AudioHelper, new_AudioHelper, constructor_body,
    detectFFmpeg_call, detectFFmpeg_resume, mkdirSync, fresh_helper.
  run. fold dir.
  destruct (existsSync dir h) eqn:He; simpl.
  - split; [intros e s [=]|].
    split.
    + intros s [= <-]. simpl. rewrite existsSync_with_trace. auto.
    + intros s.
      destruct (exec_result h) as [out err|err]; simpl;
        [destruct (String.eqb (trim out) ""); simpl|];
        intros [= <-]; simpl; auto.
  - destruct (mkdir_error h) as [e|] eqn:Hm; simpl.
    + split; [intros e' s [= <- <-]; auto|].
      split; intros s [=].
    + split; [intros e s [=]|].
      split.
      * intros s [= <-]. simpl. unfold existsSync. simpl.
        rewrite (bool_decide_eq_true_2 (dir ∈ {[dir]} ∪ dirs h));
          [|apply elem_of_union_l, elem_of_singleton; reflexivity].
        rewrite orb_true_r. auto.
      * intros s.
        destruct (exec_result h) as [out err|err]; simpl;
          [destruct (String.eqb (trim out) ""); simpl|];
          intros [= <-]; simpl; auto.
Qed.

End ConstructionProperties.

(** ** Cleaning the audio directory *)

Section CleanupProperties.
Context {node : NodeLib} {fslib : FsLib}.

Lemma unlinkSync_cases (k : string) (a : AudioHelper) (h : Host) :
  (files h !! k <> None /\ (k ∉ locked h) /\
   unlinkSync k (mkSt a h)
     = (Ret tt, mkSt a (with_files (delete k (files h)) h)))
  \/
  (exists msg, (files h !! k = None \/ k ∈ locked h) /\
               unlinkSync k (mkSt a h) = (Throw msg, mkSt a h)).
Proof.
  unfold unlinkSync. run. destruct (files h !! k) eqn:Hk; simpl.
  - destruct (bool_decide_reflect (k ∈ locked h)) as [Hr|Hr]; simpl.
    + right. eauto.
    + left. auto.
  - right. eauto.
Qed.

(** The loop only deletes, and only the listed names that end in [.wav]. *)
Lemma unlinkWavs_confined dir names a h o s' :
  unlinkWavs dir names (mkSt a h) = (o, s') ->
  this s' = a /\
  dirs (host s') = dirs h /\ locked (host s') = locked h /\
  trace (host s') = trace h /\
  forall k,
    files (host s') !! k = files h !! k \/
    (files (host s') !! k = None /\
     exists f, In f names /\ endsWith f ".wav" = true /\
               k = path_join dir f).
Proof.
  revert h o s'. induction names as [|file rest IH]; intros h o s' Hrun.
  - injection Hrun as <- <-. simpl.
    repeat (split; [reflexivity|]). intros k. left. reflexivity.
  - cbn [unlinkWavs] in Hrun. unfold bind in Hrun.
    destruct (endsWith file ".wav") eqn:Hwav.
    + destruct (unlinkSync_cases (path_join dir file) a h)
        as [(_ & _ & Hu)|(msg & _ & Hu)]; rewrite Hu in Hrun.
      * destruct (IH _ _ _ Hrun) as (Ht & Hd & Hr & Htr & Hk).
        simpl in *. repeat (split; [assumption|]).
        intros k. destruct (Hk k) as [Heq|(Hnone & f & Hin & Hf & ->)].
        -- destruct (decide (k = path_join dir file)) as [->|Hne].
           ++ right. split; [rewrite Heq; apply lookup_delete_eq|].
              exists file. simpl. auto.
           ++ left. rewrite Heq. apply lookup_delete_ne. congruence.
        -- right. split; [exact Hnone|]. exists f. simpl. auto.
      * injection Hrun as <- <-. simpl.
        repeat (split; [reflexivity|]). intros k. left. reflexivity.
    + simpl in Hrun. destruct (IH _ _ _ Hrun) as (Ht & Hd & Hr & Htr & Hk).
      repeat (split; [assumption|]).
      intros k. destruct (Hk k) as [Heq|(Hnone & f & Hin & Hf & ->)];
        [left; exact Heq|].
      right. split; [exact Hnone|]. exists f. simpl. auto.
Qed.


(** X21. Cleaning is confined. [cleanupAudioDirectory] always returns,
    leaves the helper (an active session included) and the directories as
    they were, never creates or changes a file, and the only files it
    removes are entries of the audio directory whose name ends in
    [.wav]. *)
Theorem cleanupAudioDirectory_confined (s : St) :
  let dir := audioDir (this s) in
  let s' := snd (cleanupAudioDirectory s) in
  fst (cleanupAudioDirectory s) = Ret tt /\
  this s' = this s /\
  dirs (host s') = dirs (host s) /\
  forall k,
    files (host s') !! k = files (host s) !! k \/
    (files (host s') !! k = None /\
     exists f, In f (dir_entries (host s) dir) /\
               endsWith f ".wav" = true /\ k = path_join dir f).
Proof.
  destruct s as [a h]; simpl.
  unfold cleanupAudioDirectory, readdirSync. run.
  assert (Hsame : forall k : string,
    files h !! k = files h !! k \/
    (files h !! k = None /\
     exists f, In f (dir_entries h (audioDir a)) /\
               endsWith f ".wav" = true /\ k = path_join (audioDir a) f)).
  { intros k. left. reflexivity. }
  destruct (existsSync (audioDir a) h); simpl; [|auto].
  destruct (bool_decide (audioDir a ∈ dirs h)); simpl.
  - destruct (unlinkWavs (audioDir a) (dir_entries h (audioDir a)) (mkSt a h))
      as [o s'] eqn:Hrun.
    destruct (unlinkWavs_confined _ _ _ _ _ _ Hrun) as (Ht & Hd & _ & _ & Hk).
    destruct o as [[]|e]; simpl; auto.
  - destruct (files h !! audioDir a); simpl; auto.
Qed.


(** X23. Cleaning stops at the first entry it cannot remove. When the
    first entry ending in [.wav] is missing or locked, nothing at all is
    removed, later recordings included, and the failure is logged. *)
Theorem cleanupAudioDirectory_stops_at_failure
    (s : St) (before after : list string) (file : string) :
  let dir := audioDir (this s) in
  dir ∈ dirs (host s) ->
  dir_entries (host s) dir = (before ++ file :: after)%list ->
  wavs before = [] ->
  endsWith file ".wav" = true ->
  files (host s) !! path_join dir file = None
    \/ path_join dir file ∈ locked (host s) ->
  let s' := snd (cleanupAudioDirectory s) in
  files (host s') = files (host s) /\
  exists msg,
    trace (host s') =
      (trace (host s)
         ++ [Console LError ("Error cleaning audio directory: " ++ msg)%string])%list.
Proof.
  destruct s as [a h]; simpl. intros Hdir Hentries Hbefore Hwav Hbad.
  unfold cleanupAudioDirectory, readdirSync. run.
  unfold existsSync. rewrite (bool_decide_eq_true_2 _ Hdir), orb_true_r.
  simpl. case_bool_decide; [|contradiction]. simpl. rewrite Hentries.
  assert (Hloop : exists msg,
    unlinkWavs (audioDir a) (before ++ file :: after) (mkSt a h)
      = (Throw msg, mkSt a h)).
  { clear Hentries. induction before as [|b before IH].
    - cbn [app unlinkWavs]. unfold bind. rewrite Hwav.
      destruct (unlinkSync_cases (path_join (audioDir a) file) a h)
        as [(Hex & Hnr & _)|(msg & _ & Hu)].
      + destruct Hbad; contradiction.
      + rewrite Hu. eauto.
    - unfold wavs in Hbefore. cbn [List.filter] in Hbefore.
      destruct (endsWith b ".wav") eqn:Hb; [discriminate|].
      cbn [app unlinkWavs]. unfold bind. rewrite Hb. simpl.
      apply IH. exact Hbefore. }
  destruct Hloop as (msg & Hloop). rewrite Hloop. simpl. eauto.
Qed.

End CleanupProperties.






Section CleanupAndSessions.
Context {node : NodeLib} {fslib : FsLib}.


End CleanupAndSessions.

(** ** Real capture on Windows *)

Lemma selectNames_exists device names s :
  selectNames device names s =
    (Ret (existsb (fun name => includes name device) names),
     log_to (if existsb (fun name => includes name device) names
             then [Console LLog
                     ("Using detected microphone device: " ++ device)]
             else []) s).
Proof.
  induction names as [|name rest IH]; cbn [selectNames existsb].
  - rewrite log_to_nil. reflexivity.
  - destruct (includes name device); simpl; [reflexivity|exact IH].
Qed.

Lemma selectDevice_find devices s :
  selectDevice devices s =
    (Ret (List.find isSelectable devices),
     log_to (selection_log (List.find isSelectable devices)) s).
Proof.
  revert s. induction devices as [|d rest IH]; intros s;
    cbn [selectDevice List.find].
  - rewrite log_to_nil. reflexivity.
  - unfold bind. rewrite selectNames_exists.
    fold selectionNames. fold (isSelectable d).
    destruct (isSelectable d); simpl; [reflexivity|].
    rewrite IH, log_to_app. reflexivity.
Qed.

(** Whatever contains one of the three names contains one of the five. *)
Lemma isSelectable_likely d : isSelectable d = true -> isLikelyMicrophone d = true.
Proof.
  unfold isSelectable, isLikelyMicrophone, selectionNames, commonMicNames.
  simpl. destruct (includes "Microphone" d), (includes "Mic" d),
    (includes "Audio" d), (includes "Input" d), (includes "Headset" d);
    simpl; auto.
Qed.

(** X25. The microphone selection of [startWindowsRecording] picks the
    first device, in the order of discovery, whose name contains
    Microphone, Mic or Headset, and logs it; it picks none when no device
    has such a name. A device it picks is one that discovery logs as a
    likely microphone. *)
Theorem selectDevice_first_match (devices : list string) (s : St) :
  selectDevice devices s =
    (Ret (List.find isSelectable devices),
     log_to (selection_log (List.find isSelectable devices)) s) /\
  (forall d, List.find isSelectable devices = Some d ->
             In d devices /\ isLikelyMicrophone d = true /\
             exists name, In name ["Microphone"; "Mic"; "Headset"] /\
                          includes name d = true) /\
  (List.find isSelectable devices = None ->
   forall d name, In d devices -> In name ["Microphone"; "Mic"; "Headset"] ->
                  includes name d = false).
Proof.
  split; [apply selectDevice_find|]. split.
  - intros d Hfind. apply List.find_some in Hfind as [Hin Hsel].
    split; [exact Hin|]. split; [apply isSelectable_likely, Hsel|].
    unfold isSelectable in Hsel. apply existsb_exists in Hsel. exact Hsel.
  - intros Hnone d name Hd Hname.
    pose proof (List.find_none _ _ Hnone d Hd) as Hsel.
    unfold isSelectable in Hsel.
    destruct (includes name d) eqn:Hinc; [|reflexivity].
    rewrite <- Hsel. symmetry. apply existsb_exists. eauto.
Qed.

(** The synthesizer does not look at the trace. *)
Lemma simulateRecording_after_log l s :
  fst (simulateRecording (log_to l s)) = fst (simulateRecording s) /\
  this (snd (simulateRecording (log_to l s)))
    = this (snd (simulateRecording s)) /\
  files (host (snd (simulateRecording (log_to l s))))
    = files (host (snd (simulateRecording s))).
Proof.
  destruct s as [a h]. unfold simulateRecording, writeFileSync, log_to. run.
  destruct (currentRecordingPath a) as [p|]; run; [|auto].
  destruct (bool_decide (p ∈ dirs h)); run; [auto|].
  destruct (bool_decide (p ∈ refused h)); run; auto.
Qed.

Lemma listAudioDevices_logs s :
  exists devices l, listAudioDevices s = (Ret devices, log_to l s).
Proof.
  destruct (truthy (ffmpegPath (this s))) as [ffmpeg|] eqn:Hff.
  - destruct (is_win32 (platform (host s))) eqn:Hwin.
    + pose proof (listAudioDevices_win32 s ffmpeg Hff Hwin) as Hw.
      simpl in Hw. rewrite Hw, scanDevices_marks. simpl.
      rewrite log_to_app. eauto.
    + rewrite (listAudioDevices_elsewhere s ffmpeg Hff Hwin). eauto.
  - rewrite (listAudioDevices_unavailable s Hff). eauto.
Qed.

(** On Windows the real-capture start is the synthesizer after some
    logging. *)
Lemma startWindowsRecording_simulates s :
  exists l, startWindowsRecording s = simulateRecording (log_to l s).
Proof.
  unfold startWindowsRecording.
  destruct (listAudioDevices_logs s) as (devices & l & Hlist).
  assert (Hbody : exists l',
    (audioDevices <- listAudioDevices ;;
     match audioDevices with
     | first :: _ =>
         found <- selectDevice audioDevices ;;
         match found with
         | Some _ => ret tt
         | None =>
             console_log
               ("No specific microphone found, using first audio device: "
                  ++ first)
         end ;;;
         simulateRecording
     | [] =>
         console_log
           "No audio devices detected, falling back to simulated recording" ;;;
         simulateRecording
     end) s = simulateRecording (log_to l' s)).
  { unfold bind at 1. rewrite Hlist. destruct devices as [|d rest].
    - unfold bind, console_log. rewrite emit_log_to, log_to_app. eauto.
    - unfold bind at 1. rewrite selectDevice_find.
      destruct (List.find isSelectable (d :: rest)); unfold bind, ret,
        console_log; rewrite ?emit_log_to, !log_to_app; eauto. }
  destruct Hbody as (l' & Hbody). exists l'.
  unfold try_catch. rewrite Hbody.
  destruct (simulateRecording_returns (log_to l' s)) as (r & Hr).
  destruct (simulateRecording (log_to l' s)) as [o s'].
  simpl in Hr. subst o. reflexivity.
Qed.

(** X26. On Windows the real-capture path is the synthesizer.
    [startFFmpegRecording] there returns what [simulateRecording] returns,
    leaves the helper and the files as [simulateRecording] does, and never
    stores a process handle, whatever devices discovery finds. *)
Theorem startFFmpegRecording_on_windows (s : St) :
  is_win32 (platform (host s)) = true ->
  fst (startFFmpegRecording s) = fst (simulateRecording s) /\
  this (snd (startFFmpegRecording s)) = this (snd (simulateRecording s)) /\
  files (host (snd (startFFmpegRecording s)))
    = files (host (snd (simulateRecording s))) /\
  recordingProcess (this (snd (startFFmpegRecording s)))
    = recordingProcess (this s).
Proof.
  intros Hwin.
  assert (Hrun : exists l, startFFmpegRecording s = simulateRecording (log_to l s)).
  { destruct (startWindowsRecording_simulates s) as (l & Hl). exists l.
    unfold startFFmpegRecording, try_catch. unfold bind at 1. unfold gets at 1.
    rewrite Hwin. cbv iota. rewrite Hl.
    destruct (simulateRecording_returns (log_to l s)) as (r & Hr).
    destruct (simulateRecording (log_to l s)) as [o s'].
    simpl in Hr. subst o. reflexivity. }
  destruct Hrun as (l & Hrun). rewrite Hrun.
  destruct (simulateRecording_after_log l s) as (H1 & H2 & H3).
  repeat split; try assumption.
  rewrite H2.
  destruct (simulateRecording_cases s)
    as [(p & _ & _ & _ & Hs)|(msg & _ & Hs)]; rewrite Hs; reflexivity.
Qed.

Lemma device_names_well_formed_witness :
  Forall (fun name =>
            name <> "" /\ quote_free name = true /\
            includes (String newline "") name = false)
         ["Microphone (Realtek Audio)"; "Line In"].
Proof.
  apply (device_names_well_formed (listing_host win32)). reflexivity.
Defined.

Lemma discovery_without_ffmpeg_witness :
  fst ((detectFFmpeg ;;; listAudioDevices) idle) = Ret [].
Proof.
  apply (discovery_without_ffmpeg idle None). reflexivity.
Defined.



Lemma locked_entries :
  dir_entries (FsLib := posix_fs) (host locked_store)
    (audioDir (this locked_store))
    = ["recording-a.wav"; "recording-b.wav"].
Proof. vm_compute. reflexivity. Qed.


Lemma cleanupAudioDirectory_stops_at_failure_witness :
  files (host (snd (cleanupAudioDirectory (node := posix)
                      (fslib := posix_fs) locked_store)))
    = files (host locked_store).
Proof.
  apply (cleanupAudioDirectory_stops_at_failure (node := posix)
           (fslib := posix_fs) locked_store [] ["recording-b.wav"]
           "recording-a.wav").
  - vm_compute. reflexivity.
  - exact locked_entries.
  - reflexivity.
  - reflexivity.
  - right. vm_compute. reflexivity.
Defined.


Lemma startFFmpegRecording_on_windows_witness :
  fst (startFFmpegRecording windows_armed)
    = Ret (mkRecordingResult true None (Some "C:\audio\recording-a.wav")) /\
  recordingProcess (this (snd (startFFmpegRecording windows_armed))) = None.
Proof.
  destruct (startFFmpegRecording_on_windows windows_armed)
    as (Hres & _ & _ & Hproc); [reflexivity|].
  split; [rewrite Hres; reflexivity|exact Hproc].
Defined.

Lemma stopRecording_resets_witness :
  isRecording (this (snd (stopRecording orphaned))) = false /\
  currentRecordingPath (this (snd (stopRecording orphaned))) = None.
Proof.
  apply (stopRecording_resets orphaned); [reflexivity | left; reflexivity].
Defined.
